(** * Archon launcher ([run_docker.py]): model and verification

    The script is a straight-line sequence of calls to the outside world
    (the [docker] command line, TCP probes of localhost, one existence test
    on the file system) with a little string and branch logic around them.
    The development embeds it as a state-and-exception monad over an
    abstract host:

    - the host ([Host]) answers every external request of the script from
      its current world state, and moves to a new world state;
    - the script's state is the world together with the chronological log of
      what the script did (lines printed, processes spawned, ports probed,
      pauses);
    - a Python exception is an outcome [Raised e]; [try ... except] is
      [try_except].

    A [string] holds bytes. The output of a process is the bytes it wrote;
    a text ([str]) is held as its UTF-8 encoding, so that joining texts,
    cutting a stream after line feeds and looking for an ASCII word in a
    text are the operations on bytes. [str.strip] and
    [bytes.decode('utf-8', errors='replace')] are defined on this
    encoding; [str.lower], the decoding in the encoding of the locale
    and [str] of an exception belong to the host. [print], [Path.exists],
    [Path.absolute] and [time.sleep] are taken not to raise, and the error
    stream that [capture_output] collects is taken to be valid text. *)

From Stdlib Require Import ZArith List String Ascii Bool Lia DecimalString.
Import ListNotations.
Open Scope string_scope.
Open Scope Z_scope.

(** ** Text helpers: the [str] methods the script uses *)

Definition nl : string := String (ascii_of_nat 10) EmptyString.

(** [sep.join(l)] *)
Fixpoint join (sep : string) (l : list string) : string :=
  match l with
  | [] => EmptyString
  | [x] => x
  | x :: rest => x ++ sep ++ join sep rest
  end.

(** The text whose bytes are given by their numbers. *)
Fixpoint bytes (l : list Z) : string :=
  match l with
  | [] => EmptyString
  | n :: rest => String (ascii_of_N (Z.to_N n)) (bytes rest)
  end.

(** The number of a byte. *)
Definition byte_value (c : ascii) : Z := Z.of_N (N_of_ascii c).

(** [needle in hay] *)
Fixpoint contains (needle hay : string) : bool :=
  (String.prefix needle hay
   || match hay with
      | EmptyString => false
      | String _ t => contains needle t
      end)%bool.

Fixpoint rev_string (acc s : string) : string :=
  match s with
  | EmptyString => acc
  | String c t => rev_string (String c acc) t
  end.

Fixpoint skip (n : nat) (s : string) : string :=
  match n, s with
  | S n', String _ t => skip n' t
  | _, _ => s
  end.

(** The characters [str.isspace] holds of, in UTF-8: U+0009 to U+000D,
    U+001C to U+0020, U+0085, U+00A0, U+1680, U+2000 to U+200A, U+2028,
    U+2029, U+202F, U+205F and U+3000. *)
Definition whitespace : list string :=
  map bytes
    [ [9]; [10]; [11]; [12]; [13]; [28]; [29]; [30]; [31]; [32];
      [194; 133]; [194; 160]; [225; 154; 128];
      [226; 128; 128]; [226; 128; 129]; [226; 128; 130]; [226; 128; 131];
      [226; 128; 132]; [226; 128; 133]; [226; 128; 134]; [226; 128; 135];
      [226; 128; 136]; [226; 128; 137]; [226; 128; 138];
      [226; 128; 168]; [226; 128; 169]; [226; 128; 175];
      [226; 129; 159]; [227; 128; 128] ].

(** [s] without the longest beginning made of members of [chars]. *)
Fixpoint drop_leading (chars : list string) (fuel : nat) (s : string) : string :=
  match fuel with
  | O => s
  | S fuel' =>
      match find (fun c => String.prefix c s) chars with
      | Some c => drop_leading chars fuel' (skip (String.length c) s)
      | None => s
      end
  end.

Definition lstrip (s : string) : string :=
  drop_leading whitespace (String.length s) s.

Definition rstrip (s : string) : string :=
  rev_string EmptyString
    (drop_leading (map (rev_string EmptyString) whitespace) (String.length s)
       (rev_string EmptyString s)).

(** [s.strip()] *)
Definition strip (s : string) : string := rstrip (lstrip s).

(** U+FFFD, the replacement character. *)
Definition replacement_character : string := bytes [239; 191; 189].

Definition in_range (n : Z) (range : Z * Z) : bool :=
  ((fst range <=? n) && (n <=? snd range))%bool.

(** The bytes that may follow a first byte in well-formed UTF-8, one
    range for each; [None] for a byte that begins no character. *)
Definition continuation (first : Z) : option (list (Z * Z)) :=
  if in_range first (0, 127) then Some []
  else if in_range first (194, 223) then Some [(128, 191)]
  else if first =? 224 then Some [(160, 191); (128, 191)]
  else if in_range first (225, 236) then Some [(128, 191); (128, 191)]
  else if first =? 237 then Some [(128, 159); (128, 191)]
  else if in_range first (238, 239) then Some [(128, 191); (128, 191)]
  else if first =? 240 then Some [(144, 191); (128, 191); (128, 191)]
  else if in_range first (241, 243) then Some [(128, 191); (128, 191); (128, 191)]
  else if first =? 244 then Some [(128, 143); (128, 191); (128, 191)]
  else None.

(** [b.decode('utf-8', errors='replace')]: a well-formed character is
    kept, every longest ill-formed run of bytes that begins a character
    becomes one U+FFFD, and so does every byte that begins none.
    [pending] holds the bytes read of the current character, [expected]
    the ranges of those still to come. *)
Fixpoint decode_from (pending : string) (expected : list (Z * Z)) (s : string)
  : string :=
  match s with
  | EmptyString =>
      match expected with
      | [] => EmptyString
      | _ => replacement_character
      end
  | String c t =>
      let begin_character :=
        match continuation (byte_value c) with
        | Some [] => String c (decode_from EmptyString [] t)
        | Some ranges => decode_from (String c EmptyString) ranges t
        | None => replacement_character ++ decode_from EmptyString [] t
        end in
      match expected with
      | [] => begin_character
      | range :: rest =>
          if in_range (byte_value c) range then
            match rest with
            | [] => pending ++ String c (decode_from EmptyString [] t)
            | _ => decode_from (pending ++ String c EmptyString) rest t
            end
          else replacement_character ++ begin_character
      end
  end.

Definition decode_utf8_replace (s : string) : string :=
  decode_from EmptyString [] s.

(** [s] is well-formed UTF-8: decoding it replaces nothing. *)
Definition utf8 (s : string) : bool := (decode_utf8_replace s =? s)%string.

(** The line ends of a text read in text mode: a carriage return, alone
    or followed by a line feed, becomes a line feed. *)
Fixpoint translate_newlines (s : string) : string :=
  match s with
  | EmptyString => EmptyString
  | String c t =>
      if (byte_value c =? 13) then
        match t with
        | String d t' =>
            if (byte_value d =? 10) then String d (translate_newlines t')
            else String (ascii_of_N 10) (translate_newlines t)
        | EmptyString => String (ascii_of_N 10) EmptyString
        end
      else String c (translate_newlines t)
  end.

Definition lower_ascii (c : ascii) : ascii :=
  let n := nat_of_ascii c in
  if (Nat.leb 65 n && Nat.leb n 90)%bool then ascii_of_nat (n + 32) else c.

(** The lower case of a text as far as ASCII letters go: A to Z, the
    Kelvin sign U+212A (to k) and the capital I with a dot above U+0130
    (to i and the combining dot U+0307) are lowered, the only characters
    whose lower case holds an ASCII letter; every other character is
    left as it is. An ASCII word is in the result exactly when it is in
    [s.lower()]. *)
Fixpoint lower_to_ascii (s : string) : string :=
  match s with
  | EmptyString => EmptyString
  | String c t =>
      let default := String (lower_ascii c) (lower_to_ascii t) in
      match t with
      | String d t' =>
          if ((byte_value c =? 196) && (byte_value d =? 176))%bool
          then String "i" (bytes [204; 135] ++ lower_to_ascii t')
          else
            match t' with
            | String e t'' =>
                if ((byte_value c =? 226) && (byte_value d =? 132)
                    && (byte_value e =? 170))%bool
                then String "k" (lower_to_ascii t'')
                else default
            | EmptyString => default
            end
      | EmptyString => default
      end
  end.

(** Python truth value of a string and of a list. *)
Definition truthy (s : string) : bool :=
  match s with EmptyString => false | _ => true end.

Definition nonempty {A} (l : list A) : bool :=
  match l with [] => false | _ => true end.

(** The lines a loop [for line in process.stdout] receives: the stream cut
    after every line feed, the line feed kept. *)
Fixpoint readlines (s : string) : list string :=
  match s with
  | EmptyString => []
  | String c t =>
      if Ascii.eqb c (ascii_of_nat 10) then String c EmptyString :: readlines t
      else match readlines t with
           | [] => [String c EmptyString]
           | l :: ls => String c l :: ls
           end
  end.

(** [str(n)] for an integer, and [str(l)] for a list of integers. *)
Definition str_int (n : Z) : string := NilZero.string_of_int (Z.to_int n).

Definition str_int_list (l : list Z) : string :=
  "[" ++ join ", " (map str_int l) ++ "]".

(** ** Paths ([pathlib.Path]) *)

Record path := { anchor : string; parts : list string }.

(** [p / name] for a single relative component. *)
Definition path_div (p : path) (name : string) : path :=
  {| anchor := anchor p; parts := (parts p ++ [name])%list |}.

(** [str(p)], with the separator of the path flavour. *)
Definition path_str (sep : string) (p : path) : string :=
  anchor p ++ join sep (parts p).

(** ** The outside world *)

(** Classes of [OSError] the script can meet. *)
Inductive oserror :=
| FileNotFoundError
| PermissionError
| gaierror
| OtherOSError.

(** Exceptions: [subprocess.CalledProcessError] (the [SubprocessError] that
    [subprocess.run(check=True)] raises on a non-zero status), [OSError],
    and [UnicodeDecodeError] (a [ValueError]). *)
Inductive exn :=
| CalledProcessError (returncode : Z)
| OSError (e : oserror)
| UnicodeDecodeError.

(** Answer to starting a process and waiting for it: it could not be
    started, or it ran and exited with a status and the bytes it wrote on
    the output stream the caller reads. *)
Inductive spawn_result :=
| SpawnFailed (e : oserror)
| Exited (returncode : Z) (output : string).

(** Answer to [socket.connect_ex]: an exception (name resolution), or the
    error indicator, [0] for a successful connection. *)
Inductive connect_result :=
| ConnectRaised (e : oserror)
| ConnectErrno (errno : Z).

Inductive file_kind := RegularFile | Directory | OtherKind.

Class Host (W : Type) := {
  (** [platform.system()] *)
  platform_system : string;
  (** separator of the path flavour *)
  path_sep : string;
  (** [Path(__file__).parent.absolute()] *)
  script_dir : path;
  (** start [command] in directory [cwd], wait for it *)
  spawn : list string -> option path -> W -> spawn_result * W;
  (** [socket.connect_ex(('localhost', port))] on a fresh TCP socket *)
  connect_ex : Z -> W -> connect_result * W;
  (** what [stat] finds at a path, [None] when nothing is there *)
  stat : path -> W -> option file_kind;
  (** what [text=True] makes of a captured stream: the bytes decoded in
      the encoding of the locale and the line ends then turned into line
      feeds; [None] when the bytes are not valid in that encoding *)
  locale_decode : string -> option string;
  (** [s.lower()] *)
  lower : string -> string;
  (** [str(e)] for an exception *)
  exception_text : exn -> string
}.

(** What the script does, in order. *)
Inductive event :=
| Printed (line : string)
| Spawned (command : list string) (cwd : option path)
| Probed (port : Z)
| Slept (seconds : Z).

Inductive outcome (A : Type) :=
| Returned (a : A)
| Raised (e : exn).
Arguments Returned {A} a.
Arguments Raised {A} e.

Record state (W : Type) := { world : W; log : list event }.
Arguments world {W} s.
Arguments log {W} s.

Definition mk {W} (w : W) (l : list event) : state W := {| world := w; log := l |}.

(** ** The monad *)

Definition M (W A : Type) : Type := state W -> outcome A * state W.

Definition ret {W A} (a : A) : M W A := fun s => (Returned a, s).

Definition raise {W A} (e : exn) : M W A := fun s => (Raised e, s).

Definition bind {W A B} (m : M W A) (k : A -> M W B) : M W B :=
  fun s =>
    match m s with
    | (Returned a, s') => k a s'
    | (Raised e, s') => (Raised e, s')
    end.

(** [try: body except ...]: [handler e] is the clause that catches [e], or
    [None] when no clause does. *)
Definition try_except {W A} (body : M W A) (handler : exn -> option (M W A))
  : M W A :=
  fun s =>
    match body s with
    | (Returned a, s') => (Returned a, s')
    | (Raised e, s') =>
        match handler e with
        | Some h => h s'
        | None => (Raised e, s')
        end
    end.

Definition emit {W} (e : event) : M W unit :=
  fun s => (Returned tt, {| world := world s; log := (log s ++ [e])%list |}).

Declare Scope monad_scope.
Delimit Scope monad_scope with monad.
Notation "x <- c1 ;; c2" := (bind c1 (fun x => c2))
  (at level 61, c1 at next level, right associativity) : monad_scope.
Notation "c1 ;; c2" := (bind c1 (fun _ => c2))
  (at level 61, right associativity) : monad_scope.
Open Scope monad_scope.

(** [for x in l: body(x)] *)
Fixpoint for_each {W A} (l : list A) (body : A -> M W unit) : M W unit :=
  match l with
  | [] => ret tt
  | x :: rest => body x ;; for_each rest body
  end.

(** [[x for x in l if keep(x)]] *)
Fixpoint comprehension {W A} (l : list A) (keep : A -> M W bool) : M W (list A) :=
  match l with
  | [] => ret []
  | x :: rest =>
      b <- keep x ;;
      tl <- comprehension rest keep ;;
      ret (if b then x :: tl else tl)
  end.

(** ** The script *)

Section Script.
Context {W : Type} {host : Host W}.

Local Abbreviation M := (M W).

(** [print(line)] *)
Definition print (line : string) : M unit := emit (Printed line).

(** [time.sleep(seconds)] *)
Definition sleep (seconds : Z) : M unit := emit (Slept seconds).

(** [subprocess.Popen(command, cwd=cwd)] read to the end and waited for:
    the return code and the output. An [OSError] of the start is raised. *)
Definition popen (command : list string) (cwd : option path) : M (Z * string) :=
  emit (Spawned command cwd) ;;
  fun s =>
    match spawn command cwd (world s) with
    | (SpawnFailed e, w) => (Raised (OSError e), {| world := w; log := log s |})
    | (Exited rc out, w) => (Returned (rc, out), {| world := w; log := log s |})
    end.

(** [subprocess.run(command, check=True, ..., text=text)], returning
    [stdout]: the output is captured to the end and, with [text=True],
    decoded in the encoding of the locale, before the return code is
    checked. *)
Definition subprocess_run (command : list string) (text : bool) : M string :=
  r <- popen command None ;;
  stdout <-
    (if text then
       match locale_decode (snd r) with
       | Some decoded => ret decoded
       | None => raise UnicodeDecodeError
       end
     else ret (snd r)) ;;
  if fst r =? 0 then ret stdout else raise (CalledProcessError (fst r)).

(** lines 13-32 *)
Definition run_command (command : list string) (cwd : option path) : M Z :=
  print ("Running: " ++ join " " command) ;;
  process <- popen command cwd ;;
  for_each (readlines (snd process))
    (fun line =>
       try_except
         (let decoded_line := decode_utf8_replace line in
          print (strip decoded_line))
         (fun e => Some (print ("Error processing output: " ++ exception_text e)))) ;;
  ret (fst process).

(** lines 34-57 *)
Definition check_docker : M bool :=
  try_except
    (subprocess_run ["docker"; "--version"] false ;;
     subprocess_run ["docker"; "info"] false ;;
     ret true)
    (fun e =>
       match e with
       | CalledProcessError _ =>
           Some (print "Error: Docker is not running. Please start Docker Desktop or Docker service." ;;
                 ret false)
       | OSError FileNotFoundError =>
           Some (print "Error: Docker is not installed or not in PATH" ;;
                 ret false)
       | _ => None
       end).

(** lines 59-83 *)
Definition detect_windows_docker_environment : M string :=
  if negb (platform_system =? "Windows")%string then ret "standard"
  else
    try_except
      (stdout <- subprocess_run ["docker"; "info"] true ;;
       if (contains "wsl" (lower stdout) || contains "microsoft" (lower stdout))%bool
       then ret "docker-desktop"
       else if (contains "virtualbox" (lower stdout)
                || contains "docker machine" (lower stdout))%bool
       then ret "docker-toolbox"
       else ret "docker-desktop")
      (fun _ => Some (ret "docker-desktop")).

(** lines 85-88 *)
Definition is_port_available (port : Z) : M bool :=
  emit (Probed port) ;;
  fun s =>
    match connect_ex port (world s) with
    | (ConnectRaised e, w) => (Raised (OSError e), {| world := w; log := log s |})
    | (ConnectErrno n, w) => (Returned (negb (n =? 0)), {| world := w; log := log s |})
    end.

(** [p.exists()] *)
Definition path_exists (p : path) : M bool :=
  fun s => (Returned (match stat p (world s) with Some _ => true | None => false end), s).

Definition required_ports : list Z := [8501; 8100].

Definition base_dir : path := script_dir.
Definition env_file : path := path_div base_dir ".env".
Definition mcp_dir : path := path_div base_dir "mcp".

(** lines 133-146 of [main]: stop and remove a container that is already
    running. *)
Definition replace_running_container : M unit :=
  try_except
    (stdout <- subprocess_run ["docker"; "ps"; "-q"; "--filter"; "name=archon-container"] true ;;
     if truthy (strip stdout) then
       print (nl ++ "=== Stopping existing Archon container ===") ;;
       run_command ["docker"; "stop"; "archon-container"] None ;;
       run_command ["docker"; "rm"; "archon-container"] None ;;
       ret tt
     else ret tt)
    (fun e =>
       match e with
       | CalledProcessError _ => Some (ret tt)
       | _ => None
       end).

(** lines 148-193 of [main]: run the container and tell how to reach it.
    [docker_env] and [env_args] are the local variables of [main] that
    these lines read. *)
Definition start_container (docker_env : string) (env_args : list string) : M Z :=
  print (nl ++ "=== Starting Archon container ===") ;;
  let cmd := ["docker"; "run"; "-d";
              "--name"; "archon-container";
              "-p"; "8501:8501";
              "-p"; "8100:8100"] in
  (* Add host configuration based on Docker environment *)
  cmd <-
    (if (docker_env =? "docker-desktop")%string then
       ret (cmd ++ ["--add-host"; "host.docker.internal:host-gateway"])%list
     else if (docker_env =? "docker-toolbox")%string then
       print "Note: For Docker Toolbox, you may need to use the VM's IP address instead of localhost" ;;
       ret cmd
     else ret cmd) ;;
  (* Add environment variables if .env exists *)
  let cmd := if nonempty env_args then (cmd ++ env_args)%list else cmd in
  (* Add image name *)
  let cmd := (cmd ++ ["archon:latest"])%list in
  rc <- run_command cmd None ;;
  if negb (rc =? 0) then
    print "Error starting Archon container" ;;
    ret 1
  else
  (* Wait a moment for the container to start *)
  sleep 2 ;;
  print (nl ++ "=== Archon is now running! ===") ;;
  (* Show appropriate access URLs based on Docker environment *)
  (if (docker_env =? "docker-toolbox")%string then
     print "-> Using Docker Toolbox:" ;;
     print "   To access the Streamlit UI, you need to use the Docker VM's IP address." ;;
     print "   Run 'docker-machine ip default' to get this IP, then access:" ;;
     print "   http://<docker-machine-ip>:8501"
   else
     print "-> Access the Streamlit UI at: http://localhost:8501") ;;
  print "-> MCP container is ready to use - see the MCP tab in the UI." ;;
  print (nl ++ "To stop Archon, run: docker stop archon-container && docker rm archon-container") ;;
  ret 0.

(** lines 98-193: [main] from the point where [docker_env] is known. *)
Definition main_with_env (docker_env : string) : M Z :=
  print ("Detected Docker environment: " ++ docker_env) ;;
  (* Check if required ports are available *)
  unavailable_ports <-
    comprehension required_ports
      (fun port => a <- is_port_available port ;; ret (negb a)) ;;
  if nonempty unavailable_ports then
    print ("Error: The following ports are already in use: "
           ++ str_int_list unavailable_ports) ;;
    print "Please stop the services using these ports or modify the port mappings." ;;
    ret 1
  else
  (* Check for .env file *)
  found <- path_exists env_file ;;
  env_args <-
    (if found then
       print ("Using environment file: " ++ path_str path_sep env_file) ;;
       ret ["--env-file"; path_str path_sep env_file]
     else
       print "No .env file found. Continuing without environment variables." ;;
       ret []) ;;
  (* Build the MCP container *)
  print (nl ++ "=== Building Archon MCP container ===") ;;
  rc <- run_command ["docker"; "build"; "-t"; "archon-mcp:latest"; "."] (Some mcp_dir) ;;
  if negb (rc =? 0) then
    print "Error building MCP container" ;;
    ret 1
  else
  (* Build the main Archon container *)
  print (nl ++ "=== Building main Archon container ===") ;;
  rc <- run_command ["docker"; "build"; "-t"; "archon:latest"; "."] (Some base_dir) ;;
  if negb (rc =? 0) then
    print "Error building main Archon container" ;;
    ret 1
  else
  (* Check if the container is already running *)
  replace_running_container ;;
  (* Run the Archon container *)
  start_container docker_env env_args.

(** lines 90-193 *)
Definition main : M Z :=
  ok <- check_docker ;;
  if negb ok then ret 1
  else
    docker_env <- detect_windows_docker_environment ;;
    main_with_env docker_env.

(** A run of the script in a fresh process: nothing logged yet. *)
Definition start (w : W) : state W := {| world := w; log := [] |}.

End Script.

(** ** Vocabulary of the properties *)

(** The engine sub-command of a command line: the word after [docker]. *)
Definition subcommand (command : list string) : string := nth 1 command EmptyString.

Definition is_build (command : list string) : bool := (subcommand command =? "build")%string.
Definition is_stop (command : list string) : bool := (subcommand command =? "stop")%string.
Definition is_rm (command : list string) : bool := (subcommand command =? "rm")%string.
Definition is_run (command : list string) : bool := (subcommand command =? "run")%string.

Definition is_stop_or_rm (command : list string) : bool :=
  (is_stop command || is_rm command)%bool.

(** The commands that act on images and containers. *)
Definition is_launch_command (command : list string) : bool :=
  (is_build command || is_stop command || is_rm command || is_run command)%bool.

(** The command lines started, in order. *)
Fixpoint commands (l : list event) : list (list string) :=
  match l with
  | [] => []
  | Spawned command _ :: rest => command :: commands rest
  | _ :: rest => commands rest
  end.

(** The lines printed, in order. *)
Fixpoint printed (l : list event) : list string :=
  match l with
  | [] => []
  | Printed line :: rest => line :: printed rest
  | _ :: rest => printed rest
  end.

(** [flag] immediately followed by [value] in a command line. *)
Fixpoint has_option (flag value : string) (command : list string) : bool :=
  match command with
  | a :: (b :: _) as rest =>
      ((a =? flag)%string && (b =? value)%string || has_option flag value rest)%bool
  | _ => false
  end.

Definition has_alias_flag (command : list string) : bool :=
  has_option "--add-host" "host.docker.internal:host-gateway" command.

Definition mentions (word : string) (command : list string) : bool :=
  existsb (String.eqb word) command.

(** The run command line without the host-gateway alias. *)
Fixpoint erase_alias (command : list string) : list string :=
  match command with
  | a :: (b :: rest') as rest =>
      if ((a =? "--add-host")%string && (b =? "host.docker.internal:host-gateway")%string)%bool
      then erase_alias rest'
      else a :: erase_alias rest
  | _ => command
  end.

(** The messages that accompany exit code 1. *)
Definition error_messages : list string :=
  [ "Error: Docker is not running. Please start Docker Desktop or Docker service.";
    "Error: Docker is not installed or not in PATH";
    "Please stop the services using these ports or modify the port mappings.";
    "Error building MCP container";
    "Error building main Archon container";
    "Error starting Archon container" ].

Definition docker_version : list string := ["docker"; "--version"].
Definition docker_info : list string := ["docker"; "info"].
Definition docker_ps : list string :=
  ["docker"; "ps"; "-q"; "--filter"; "name=archon-container"].
Definition docker_stop : list string := ["docker"; "stop"; "archon-container"].
Definition docker_rm : list string := ["docker"; "rm"; "archon-container"].
Definition build_mcp : list string := ["docker"; "build"; "-t"; "archon-mcp:latest"; "."].
Definition build_archon : list string := ["docker"; "build"; "-t"; "archon:latest"; "."].

(** The command line of the run step for an environment and the
    environment-file arguments. *)
Definition run_command_line (docker_env : string) (env_args : list string)
  : list string :=
  (["docker"; "run"; "-d"; "--name"; "archon-container";
    "-p"; "8501:8501"; "-p"; "8100:8100"]
   ++ (if (docker_env =? "docker-desktop")%string
       then ["--add-host"; "host.docker.internal:host-gateway"] else [])
   ++ env_args ++ ["archon:latest"])%list.

(** ** Expected pieces of the log *)

(** The events of one [run_command] whose process ran. *)
Definition ran (command : list string) (cwd : option path) (out : string)
  : list event :=
  ([Printed ("Running: " ++ join " " command); Spawned command cwd]
     ++ map (fun line => Printed (strip (decode_utf8_replace line))) (readlines out))%list.

(** The note [main] prints for Docker Toolbox before the run step. *)
Definition toolbox_note : string :=
  "Note: For Docker Toolbox, you may need to use the VM's IP address instead of localhost".

(** What the run step logs before the run command. *)
Definition start_banner (docker_env : string) : list event :=
  Printed (nl ++ "=== Starting Archon container ===")
  :: (if (docker_env =? "docker-desktop")%string then []
      else if (docker_env =? "docker-toolbox")%string then [Printed toolbox_note]
      else []).

(** What the run step logs once the container runs. *)
Definition access_instructions (docker_env : string) : list event :=
  ([Slept 2; Printed (nl ++ "=== Archon is now running! ===")]
   ++ (if (docker_env =? "docker-toolbox")%string then
         [Printed "-> Using Docker Toolbox:";
          Printed "   To access the Streamlit UI, you need to use the Docker VM's IP address.";
          Printed "   Run 'docker-machine ip default' to get this IP, then access:";
          Printed "   http://<docker-machine-ip>:8501"]
       else [Printed "-> Access the Streamlit UI at: http://localhost:8501"])
   ++ [Printed "-> MCP container is ready to use - see the MCP tab in the UI.";
       Printed (nl ++ "To stop Archon, run: docker stop archon-container && docker rm archon-container")])%list.

(** What the replace step logs up to the end of the stop command. *)
Definition stopped (out_stop : string) : list event :=
  ([Spawned docker_ps None;
    Printed (nl ++ "=== Stopping existing Archon container ===")]
   ++ ran docker_stop None out_stop)%list.

(** [line] begins with [start]. *)
Fixpoint starts_with (start line : string) : bool :=
  match start, line with
  | EmptyString, _ => true
  | String a start', String b line' => (Ascii.eqb a b && starts_with start' line')%bool
  | String _ _, EmptyString => false
  end.

(** Lines whose text depends on the detected environment: the report of
    the detection, the echo of the run command, the Docker Toolbox note and
    the access instructions. *)
Definition env_dependent_line (line : string) : bool :=
  (starts_with "Detected Docker environment: " line
   || starts_with "Running: docker run " line
   || existsb (String.eqb line)
        [ toolbox_note;
          "-> Using Docker Toolbox:";
          "   To access the Streamlit UI, you need to use the Docker VM's IP address.";
          "   Run 'docker-machine ip default' to get this IP, then access:";
          "   http://<docker-machine-ip>:8501";
          "-> Access the Streamlit UI at: http://localhost:8501" ])%bool.

(** The log without what may depend on the detected environment: the
    environment-dependent lines are dropped, the host-gateway alias is
    erased from the command lines. *)
Fixpoint neutral (l : list event) : list event :=
  match l with
  | [] => []
  | Printed line :: rest =>
      if env_dependent_line line then neutral rest
      else Printed line :: neutral rest
  | Spawned command cwd :: rest => Spawned (erase_alias command) cwd :: neutral rest
  | e :: rest => e :: neutral rest
  end.

(** The two forms [env_args] takes in [main]. *)
Definition env_args_form (env_args : list string) : Prop :=
  env_args = [] \/ exists p, env_args = ["--env-file"; p].

(** ** Assumptions on the host *)

Section HostAssumptions.
Context {W : Type} {host : Host W}.

(** Every time a command with this sub-command is started, the answer
    satisfies [P]. *)
Definition answers (sub : string) (P : spawn_result -> Prop) : Prop :=
  forall command cwd w, subcommand command = sub -> P (fst (spawn command cwd w)).

Definition exits_zero (r : spawn_result) : Prop := exists out, r = Exited 0 out.

Definition exits_nonzero (r : spawn_result) : Prop :=
  exists rc out, r = Exited rc out /\ rc <> 0.

Definition starts (r : spawn_result) : Prop := exists rc out, r = Exited rc out.

Definition cannot_start (r : spawn_result) : Prop := exists e, r = SpawnFailed e.

(** the process ran and what it wrote is text in the encoding of the locale *)
Definition writes_text (r : spawn_result) : Prop :=
  forall rc out, r = Exited rc out -> locale_decode out <> None.

(** the process exited with an error status, having written text *)
Definition fails_with_text (r : spawn_result) : Prop :=
  exists rc out text, r = Exited rc out /\ rc <> 0 /\ locale_decode out = Some text.

(** the process ran and what it wrote is not text in the encoding of the
    locale *)
Definition undecodable (r : spawn_result) : Prop :=
  exists rc out, r = Exited rc out /\ locale_decode out = None.

(** engine present and daemon reachable *)
Definition engine_available : Prop :=
  answers "--version" exits_zero /\ answers "info" exits_zero.

(** nothing listens on [port]: the connection attempt reports an error *)
Definition port_free (port : Z) : Prop :=
  forall w, exists n, fst (connect_ex port w) = ConnectErrno n /\ n <> 0.

Definition ports_free : Prop := port_free 8501 /\ port_free 8100.

Definition builds_succeed : Prop := answers "build" exits_zero.

Definition env_file_absent : Prop := forall w, stat env_file w = None.

Definition env_file_present : Prop := forall w, stat env_file w <> None.

(** the container list names a container *)
Definition container_listed (r : spawn_result) : Prop :=
  exists out text,
    r = Exited 0 out /\ locale_decode out = Some text /\ truthy (strip text) = true.

(** the container list is empty *)
Definition nothing_listed (r : spawn_result) : Prop :=
  exists out text,
    r = Exited 0 out /\ locale_decode out = Some text /\ truthy (strip text) = false.

(** The engine binary is not found when the script first calls it. *)
Definition engine_missing (w : W) : Prop :=
  fst (spawn docker_version None w) = SpawnFailed FileNotFoundError.

(** The binary answers the version query, the daemon-info query that
    follows exits with an error status. *)
Definition daemon_unreachable (w : W) : Prop :=
  exists out w1,
    spawn docker_version None w = (Exited 0 out, w1)
    /\ exits_nonzero (fst (spawn docker_info None w1)).

(** The answers of the port probes: [in_use p] tells whether the
    connection to [p] succeeds. *)
Definition probes_answer (in_use : Z -> bool) : Prop :=
  forall p w, In p required_ports ->
    exists n, fst (connect_ex p w) = ConnectErrno n /\ (n =? 0) = in_use p.

(** The daemon-info text mentions [word], whatever the case of its letters:
    the test [word in text.lower()]. *)
Definition info_mentions (text word : string) : bool := contains word (lower text).

Definition detected (docker_env : string) : Prop :=
  docker_env = "standard" \/ docker_env = "docker-desktop"
  \/ docker_env = "docker-toolbox".

(** The queries of the engine check and of the environment detection. *)
Definition engine_queries : list (list string) :=
  docker_version :: docker_info
    :: (if (platform_system =? "Windows")%string then [docker_info] else []).

(** The environment-file arguments [main] computes when the file system
    is in state [w]. *)
Definition env_args_at (w : W) : list string :=
  match stat env_file w with
  | Some _ => ["--env-file"; path_str path_sep env_file]
  | None => []
  end.

(** Every command can be started, and what the container list writes can
    be read as text. *)
Definition all_commands_start : Prop :=
  (forall sub, answers sub starts) /\ answers "ps" writes_text.

(** The daemon-info query succeeds and its text mentions [word]. *)
Definition info_says (word : string) (r : spawn_result) : Prop :=
  exists out text,
    r = Exited 0 out /\ locale_decode out = Some text
    /\ info_mentions text word = true.


Definition probes_never_raise : Prop :=
  forall port w e, fst (connect_ex port w) <> ConnectRaised e.

(** The answer to the run command is the same with and without the
    host-gateway alias. *)
Definition run_answer_ignores_alias : Prop :=
  forall docker_env1 docker_env2 env_args w,
    spawn (run_command_line docker_env1 env_args) None w
    = spawn (run_command_line docker_env2 env_args) None w.

End HostAssumptions.

(** ** Concrete hosts *)

(** The name of the class of an exception, for want of its text. *)
Definition exception_name (e : exn) : string :=
  match e with
  | CalledProcessError _ => "CalledProcessError"
  | OSError FileNotFoundError => "FileNotFoundError"
  | OSError PermissionError => "PermissionError"
  | OSError gaierror => "gaierror"
  | OSError OtherOSError => "OSError"
  | UnicodeDecodeError => "UnicodeDecodeError"
  end.

(** A host that answers from a fixed table, whatever happened before. The
    encoding of the locale is UTF-8; [lower] is right for the texts whose
    letters with a case are ASCII letters, the Kelvin sign or the capital
    I with a dot. *)
Record scenario := {
  sc_platform : string;
  sc_dir : path;
  sc_version : spawn_result;
  sc_info : spawn_result;
  sc_listeners : list Z;
  sc_env : option file_kind;
  sc_build_mcp : spawn_result;
  sc_build_archon : spawn_result;
  sc_ps : spawn_result;
  sc_stop : spawn_result;
  sc_rm : spawn_result;
  sc_run : spawn_result
}.

Definition scenario_spawn (sc : scenario) (command : list string) : spawn_result :=
  let sub := subcommand command in
  if (sub =? "--version")%string then sc_version sc
  else if (sub =? "info")%string then sc_info sc
  else if (sub =? "build")%string then
    if (nth 3 command EmptyString =? "archon-mcp:latest")%string then sc_build_mcp sc
    else sc_build_archon sc
  else if (sub =? "ps")%string then sc_ps sc
  else if (sub =? "stop")%string then sc_stop sc
  else if (sub =? "rm")%string then sc_rm sc
  else if (sub =? "run")%string then sc_run sc
  else Exited 1 "docker: unknown command".

Definition scenario_host (sc : scenario) : Host unit := {|
  platform_system := sc_platform sc;
  path_sep := if (sc_platform sc =? "Windows")%string then "\" else "/";
  script_dir := sc_dir sc;
  spawn := fun command _ w => (scenario_spawn sc command, w);
  connect_ex := fun port w =>
    (ConnectErrno (if existsb (Z.eqb port) (sc_listeners sc) then 0 else 111), w);
  stat := fun p _ =>
    if (path_str "/" p =? path_str "/" (path_div (sc_dir sc) ".env"))%string
    then sc_env sc else Some Directory;
  locale_decode := fun out => if utf8 out then Some (translate_newlines out) else None;
  lower := lower_to_ascii;
  exception_text := exception_name
|}.

Definition version_text : string := "Docker version 27.0.3, build 7d4bcd8".

(** A scenario from what varies between the ones below; the main image
    builds, and a stop or a remove succeeds. *)
Definition scenario_of (platform : string) (version info : spawn_result)
    (listeners : list Z) (env : option file_kind)
    (build_mcp_answer ps run : spawn_result) : scenario := {|
  sc_platform := platform;
  sc_dir := if (platform =? "Windows")%string
            then {| anchor := "C:\"; parts := ["archon"] |}
            else {| anchor := "/"; parts := ["opt"; "archon"] |};
  sc_version := version;
  sc_info := info;
  sc_listeners := listeners;
  sc_env := env;
  sc_build_mcp := build_mcp_answer;
  sc_build_archon := Exited 0 ("Step 1/9" ++ nl ++ "Successfully built" ++ nl);
  sc_ps := ps;
  sc_stop := Exited 0 "archon-container";
  sc_rm := Exited 0 "archon-container";
  sc_run := run
|}.

(** Linux, engine up, ports free, no [.env], nothing running, all commands
    succeed. *)
Definition happy : scenario :=
  scenario_of "Linux" (Exited 0 version_text) (Exited 0 "Server: Docker Engine")
    [] None (Exited 0 EmptyString) (Exited 0 EmptyString) (Exited 0 "4f1c9a").

(** As [happy], with a [.env] of the given kind beside the script. *)
Definition with_env (kind : file_kind) : scenario :=
  scenario_of "Linux" (Exited 0 version_text) (Exited 0 "Server: Docker Engine")
    [] (Some kind) (Exited 0 EmptyString) (Exited 0 EmptyString) (Exited 0 "4f1c9a").

(** Windows with Docker Desktop on WSL 2. *)
Definition windows_wsl : scenario :=
  scenario_of "Windows" (Exited 0 version_text)
    (Exited 0 "Kernel Version: 5.15.153.1-microsoft-standard-WSL2")
    [] None (Exited 0 EmptyString) (Exited 0 EmptyString) (Exited 0 "4f1c9a").

(** Windows with Docker Toolbox. *)
Definition windows_toolbox : scenario :=
  scenario_of "Windows" (Exited 0 version_text)
    (Exited 0 "Operating System: Boot2Docker 19.03 (VirtualBox)")
    [] None (Exited 0 EmptyString) (Exited 0 EmptyString) (Exited 0 "4f1c9a").

(** Windows, the daemon-info query of the detection exits with an error. *)
Definition windows_info_error : scenario :=
  scenario_of "Windows" (Exited 0 version_text)
    (Exited 1 "error during connect")
    [] None (Exited 0 EmptyString) (Exited 0 EmptyString) (Exited 0 "4f1c9a").

(** The [docker] binary is not installed. *)
Definition no_docker : scenario :=
  scenario_of "Linux" (SpawnFailed FileNotFoundError) (SpawnFailed FileNotFoundError)
    [] None (Exited 0 EmptyString) (Exited 0 EmptyString) (Exited 0 "4f1c9a").

(** Something listens on port 8501. *)
Definition busy_8501 : scenario :=
  scenario_of "Linux" (Exited 0 version_text) (Exited 0 "Server: Docker Engine")
    [8501] None (Exited 0 EmptyString) (Exited 0 EmptyString) (Exited 0 "4f1c9a").

(** Something listens on both required ports. *)
Definition busy_both : scenario :=
  scenario_of "Linux" (Exited 0 version_text) (Exited 0 "Server: Docker Engine")
    [8100; 8501] None (Exited 0 EmptyString) (Exited 0 EmptyString) (Exited 0 "4f1c9a").

(** Only port 8100 is occupied. *)
Definition busy_8100 : scenario :=
  scenario_of "Linux" (Exited 0 version_text) (Exited 0 "Server: Docker Engine")
    [8100] None (Exited 0 EmptyString) (Exited 0 EmptyString) (Exited 0 "4f1c9a").

(** Windows with Docker Toolbox, the daemon-info text in capitals with a
    Kelvin sign (U+212A) for the letter K of "DOCKER MACHINE". *)
Definition windows_kelvin : scenario :=
  scenario_of "Windows" (Exited 0 version_text)
    (Exited 0 ("PROVIDER: DOC" ++ bytes [226; 132; 170] ++ "ER MACHINE"))
    [] None (Exited 0 EmptyString) (Exited 0 EmptyString) (Exited 0 "4f1c9a").

(** Windows, the daemon-info query writes bytes that are no text in the
    encoding of the locale. *)
Definition windows_info_undecodable : scenario :=
  scenario_of "Windows" (Exited 0 version_text)
    (Exited 0 ("Name: " ++ bytes [255; 254]))
    [] None (Exited 0 EmptyString) (Exited 0 EmptyString) (Exited 0 "4f1c9a").





(** A container is running, and the run command is refused. *)
Definition running_and_run_refused : scenario :=
  scenario_of "Linux" (Exited 0 version_text) (Exited 0 "Server: Docker Engine")
    [] None (Exited 0 EmptyString) (Exited 0 ("3f2a9c1d7e5b" ++ nl))
    (Exited 125 "docker: Error response from daemon: driver failed programming external connectivity").


(** The exit status of the process: [exit(main())], and status 1 after an
    exception nobody caught. *)
Definition exit_status (o : outcome Z) : Z :=
  match o with
  | Returned code => code
  | Raised _ => 1
  end.

(** ** Further vocabulary *)

(** The ports probed, in order. *)
Fixpoint probes (l : list event) : list Z :=
  match l with
  | [] => []
  | Probed port :: rest => port :: probes rest
  | _ :: rest => probes rest
  end.

(** The pauses, in order. *)
Fixpoint pauses (l : list event) : list Z :=
  match l with
  | [] => []
  | Slept seconds :: rest => seconds :: pauses rest
  | _ :: rest => pauses rest
  end.

(** The processes started, each with its working directory, in order. *)
Fixpoint spawned (l : list event) : list (list string * option path) :=
  match l with
  | [] => []
  | Spawned command cwd :: rest => (command, cwd) :: spawned rest
  | _ :: rest => spawned rest
  end.

(** The last line of a successful run. *)
Definition stop_hint : string :=
  nl ++ "To stop Archon, run: docker stop archon-container && docker rm archon-container".

(** [first] begins [whole]. *)
Definition begins {A} (first whole : list A) : Prop :=
  exists rest, whole = (first ++ rest)%list.

Section Sequences.
Context {W : Type} {host : Host W}.

(** Every time this very command line is started, the answer satisfies [P]. *)
Definition command_answers (command : list string) (P : spawn_result -> Prop) : Prop :=
  forall cwd w, P (fst (spawn command cwd w)).

(** The processes of the engine check and of the detection. *)
Definition engine_sequence : list (list string * option path) :=
  (docker_version, None) :: (docker_info, None)
    :: (if (platform_system =? "Windows")%string then [(docker_info, None)] else []).

(** The processes from the first build on, when every step is reached:
    [replaced] tells whether a running container is stopped and removed,
    [w1] is the world in which [main] looks for [.env]. *)
Definition launch_sequence (docker_env : string) (w1 : W) (replaced : bool)
  : list (list string * option path) :=
  ([(build_mcp, Some mcp_dir); (build_archon, Some base_dir); (docker_ps, None)]
   ++ (if replaced then [(docker_stop, None); (docker_rm, None)] else [])
   ++ [(run_command_line docker_env (env_args_at w1), None)])%list.

(** What [main] prints about [.env] when the file system is in state
    [w]. *)
Definition env_announcement (w : W) : string :=
  match stat env_file w with
  | Some _ => "Using environment file: " ++ path_str path_sep env_file
  | None => "No .env file found. Continuing without environment variables."
  end.

End Sequences.

(** ** More concrete hosts *)

(** The build of the MCP image fails. *)
Definition mcp_build_fails : scenario :=
  scenario_of "Linux" (Exited 0 version_text) (Exited 0 "Server: Docker Engine")
    [] None (Exited 1 ("Step 3/9 : RUN pip install" ++ nl ++ "returned a non-zero code: 1"))
    (Exited 0 ("3f2a9c1d7e5b" ++ nl)) (Exited 0 "4f1c9a").

(** The MCP image builds, the build of the main image fails; a container
    is running. *)
Definition archon_build_fails : scenario := {|
  sc_platform := "Linux";
  sc_dir := {| anchor := "/"; parts := ["opt"; "archon"] |};
  sc_version := Exited 0 version_text;
  sc_info := Exited 0 "Server: Docker Engine";
  sc_listeners := [];
  sc_env := None;
  sc_build_mcp := Exited 0 ("Successfully built" ++ nl);
  sc_build_archon := Exited 1 ("COPY failed: no source files were specified" ++ nl);
  sc_ps := Exited 0 ("3f2a9c1d7e5b" ++ nl);
  sc_stop := Exited 0 "archon-container";
  sc_rm := Exited 0 "archon-container";
  sc_run := Exited 0 "4f1c9a"
|}.

(** The [docker] binary is there, the user may not execute it. *)
Definition not_executable : scenario :=
  scenario_of "Linux" (SpawnFailed PermissionError) (SpawnFailed PermissionError)
    [] None (Exited 0 EmptyString) (Exited 0 EmptyString) (Exited 0 "4f1c9a").

(** As [happy], on a machine where the name [localhost] cannot be
    resolved: every connection attempt raises. *)
Definition unresolvable_localhost : Host unit := {|
  platform_system := "Linux";
  path_sep := "/";
  script_dir := sc_dir happy;
  spawn := fun command _ w => (scenario_spawn happy command, w);
  connect_ex := fun _ w => (ConnectRaised gaierror, w);
  stat := fun _ _ => None;
  locale_decode := fun out => if utf8 out then Some (translate_newlines out) else None;
  lower := lower_to_ascii;
  exception_text := exception_name
|}.

(** ** The definitions at work *)

Example strip_output_line : strip ("  Step 1/9 " ++ nl) = "Step 1/9".
Proof. reflexivity. Qed.

Example readlines_keeps_line_feeds :
  readlines ("a" ++ nl ++ nl ++ "b") = ["a" ++ nl; nl; "b"].
Proof. reflexivity. Qed.

Example str_of_both_ports : str_int_list required_ports = "[8501, 8100]".
Proof. reflexivity. Qed.

(** White space outside ASCII is stripped too: a no-break space, an
    ideographic space and a next-line character around a word. *)
Example strip_unicode_space :
  strip (bytes [194; 160; 227; 128; 128] ++ "id" ++ bytes [194; 133] ++ nl) = "id"
  /\ strip (bytes [194; 160] ++ nl) = EmptyString.
Proof. split; reflexivity. Qed.

(** Bytes that are no UTF-8 are replaced, one U+FFFD for each longest
    ill-formed run. *)
Example decode_replaces_ill_formed_bytes :
  decode_utf8_replace ("a" ++ bytes [226; 130] ++ "b" ++ bytes [255; 195; 169])
  = "a" ++ replacement_character ++ "b" ++ replacement_character ++ bytes [195; 169]
  /\ utf8 ("a" ++ bytes [226; 130] ++ "b") = false
  /\ utf8 (bytes [195; 169; 226; 130; 172]) = true.
Proof. repeat split; reflexivity. Qed.

Example wsl_in_any_case :
  info_mentions (host := scenario_host happy)
    "Kernel Version: 5.15.153.1-microsoft-standard-WSL2" "wsl" = true
  /\ info_mentions (host := scenario_host happy)
       "Operating System: Docker Desktop" "wsl" = false
  /\ info_mentions (host := scenario_host happy)
       ("DOC" ++ bytes [226; 132; 170] ++ "ER MACHINE") "docker machine" = true.
Proof. repeat split; reflexivity. Qed.

Example env_file_path :
  path_str "/" (env_file (host := scenario_host happy)) = "/opt/archon/.env".
Proof. reflexivity. Qed.

Example commands_of_happy_run :
  fst (main (host := scenario_host happy) (start tt)) = Returned 0
  /\ commands (log (snd (main (host := scenario_host happy) (start tt))))
     = [docker_version; docker_info; build_mcp; build_archon; docker_ps;
        ["docker"; "run"; "-d"; "--name"; "archon-container";
         "-p"; "8501:8501"; "-p"; "8100:8100"; "archon:latest"]].
Proof. split; vm_compute; reflexivity. Qed.

Example commands_on_windows_with_env_file :
  commands
    (log (snd (main (host := scenario_host
                               (scenario_of "Windows" (Exited 0 version_text)
                                  (Exited 0 "OSType: linux (WSL2)") []
                                  (Some RegularFile) (Exited 0 EmptyString)
                                  (Exited 0 EmptyString) (Exited 0 "4f1c9a")))
                 (start tt))))
  = [docker_version; docker_info; docker_info; build_mcp; build_archon; docker_ps;
     ["docker"; "run"; "-d"; "--name"; "archon-container";
      "-p"; "8501:8501"; "-p"; "8100:8100";
      "--add-host"; "host.docker.internal:host-gateway";
      "--env-file"; "C:\archon\.env"; "archon:latest"]].
Proof. vm_compute. reflexivity. Qed.

(** ** Execution lemmas *)

Section Execution.
Context {W : Type} {host : Host W}.

Lemma for_each_print (f : string -> string) (handler : exn -> option (M W unit))
    (ls : list string) (s : state W) :
  for_each ls (fun line => try_except (print (f line)) handler) s
  = (Returned tt, mk (world s) (log s ++ map (fun line => Printed (f line)) ls)%list).
Proof.
  revert s; induction ls as [|l ls IH]; intros [w lg]; simpl.
  - unfold ret, mk; simpl. now rewrite app_nil_r.
  - unfold bind, try_except, print, emit; simpl. rewrite IH; simpl.
    unfold mk. now rewrite <- app_assoc.
Qed.

Lemma run_command_eq command cwd (s : state W) :
  run_command command cwd s
  = match spawn command cwd (world s) with
    | (SpawnFailed e, w) =>
        (Raised (OSError e),
         mk w (log s ++ [Printed ("Running: " ++ join " " command);
                         Spawned command cwd]))
    | (Exited rc out, w) =>
        (Returned rc, mk w (log s ++ ran command cwd out))
    end.
Proof.
  unfold run_command, popen, bind, ret. unfold print at 1. unfold emit.
  cbn [world log].
  destruct (spawn command cwd (world s)) as [[e|rc out] w]; cbn [fst snd].
  - unfold mk. now rewrite <- app_assoc.
  - cbv zeta.
    rewrite (for_each_print (fun line => strip (decode_utf8_replace line)));
      cbn [world log]. unfold mk, ran.
    now rewrite <- !app_assoc.
Qed.

Lemma subprocess_run_eq command text (s : state W) :
  subprocess_run command text s
  = match spawn command None (world s) with
    | (SpawnFailed e, w) =>
        (Raised (OSError e), mk w (log s ++ [Spawned command None]))
    | (Exited rc out, w) =>
        match (if text then locale_decode out else Some out) with
        | None => (Raised UnicodeDecodeError, mk w (log s ++ [Spawned command None]))
        | Some stdout =>
            if rc =? 0 then (Returned stdout, mk w (log s ++ [Spawned command None]))
            else (Raised (CalledProcessError rc), mk w (log s ++ [Spawned command None]))
        end
    end.
Proof.
  unfold subprocess_run, popen, bind, emit, ret, raise; simpl.
  destruct (spawn command None (world s)) as [[e|rc out] w]; simpl; auto.
  destruct text; [destruct (locale_decode out)|]; simpl; auto;
    destruct (rc =? 0); reflexivity.
Qed.

Lemma is_port_available_eq port (s : state W) :
  is_port_available port s
  = match connect_ex port (world s) with
    | (ConnectRaised e, w) => (Raised (OSError e), mk w (log s ++ [Probed port]))
    | (ConnectErrno n, w) => (Returned (negb (n =? 0)), mk w (log s ++ [Probed port]))
    end.
Proof.
  unfold is_port_available, bind, emit; simpl.
  destruct (connect_ex port (world s)) as [[e|n] w]; reflexivity.
Qed.

Lemma commands_app (l1 l2 : list event) :
  commands (l1 ++ l2) = (commands l1 ++ commands l2)%list.
Proof.
  induction l1 as [|[| | |] l1 IH]; simpl; auto. now rewrite IH.
Qed.

Lemma commands_printed (f : string -> string) (ls : list string) :
  commands (map (fun line => Printed (f line)) ls) = [].
Proof. induction ls; simpl; auto. Qed.

Lemma commands_ran command cwd out : commands (ran command cwd out) = [command].
Proof. unfold ran; simpl. now rewrite commands_printed. Qed.

Lemma commands_start_banner docker_env : commands (start_banner docker_env) = [].
Proof.
  unfold start_banner.
  destruct (docker_env =? "docker-desktop")%string;
    [|destruct (docker_env =? "docker-toolbox")%string]; reflexivity.
Qed.

Lemma commands_access_instructions docker_env :
  commands (access_instructions docker_env) = [].
Proof.
  unfold access_instructions.
  destruct (docker_env =? "docker-toolbox")%string; reflexivity.
Qed.

Lemma commands_stopped out : commands (stopped out) = [docker_ps; docker_stop].
Proof. unfold stopped. rewrite commands_app, commands_ran. reflexivity. Qed.

Lemma printed_app (l1 l2 : list event) :
  printed (l1 ++ l2) = (printed l1 ++ printed l2)%list.
Proof.
  induction l1 as [|[| | |] l1 IH]; simpl; auto. now rewrite IH.
Qed.

End Execution.

Create Rewrite HintDb commands.
#[global] Hint Rewrite @commands_app @commands_ran @commands_printed
  @commands_start_banner @commands_access_instructions @commands_stopped
  : commands.

#[global] Opaque run_command subprocess_run is_port_available.

(** Symbolic execution of the script: unfold the control structure, then
    meet the host's answers one at a time. *)
Ltac reduce_script :=
  repeat progress
    (unfold bind, try_except, ret, raise, print, sleep, emit, path_exists, mk;
     cbn [comprehension world log fst snd negb andb nonempty];
     try change (0 =? 0) with true;
     cbv beta iota).

Ltac unfold_script :=
  unfold main, main_with_env, check_docker, detect_windows_docker_environment,
    required_ports, start;
  reduce_script.

Ltac normalize_script :=
  repeat (first [ rewrite run_command_eq
                | rewrite subprocess_run_eq
                | rewrite is_port_available_eq ];
          reduce_script).

Section Blocks.
Context {W : Type} {host : Host W}.

Lemma start_container_eq docker_env env_args (s : state W) :
  start_container docker_env env_args s
  = let cmd := run_command_line docker_env env_args in
    match spawn cmd None (world s) with
    | (SpawnFailed e, w) =>
        (Raised (OSError e),
         mk w (log s ++ start_banner docker_env
                     ++ [Printed ("Running: " ++ join " " cmd); Spawned cmd None]))
    | (Exited rc out, w) =>
        if rc =? 0 then
          (Returned 0,
           mk w (log s ++ start_banner docker_env ++ ran cmd None out
                       ++ access_instructions docker_env))
        else
          (Returned 1,
           mk w (log s ++ start_banner docker_env ++ ran cmd None out
                       ++ [Printed "Error starting Archon container"]))
    end.
Proof.
  assert (Hcmd : forall base : list string,
             (if nonempty env_args then base ++ env_args else base)%list
             = (base ++ env_args)%list).
  { intros base. destruct env_args; cbn [nonempty]; [now rewrite app_nil_r|reflexivity]. }
  unfold start_container, run_command_line, start_banner, access_instructions.
  cbv zeta.
  destruct (docker_env =? "docker-desktop")%string eqn:Ed;
    [apply String.eqb_eq in Ed; subst docker_env;
     change ("docker-desktop" =? "docker-toolbox")%string with false
    |destruct (docker_env =? "docker-toolbox")%string eqn:Et];
    reduce_script; rewrite Hcmd, run_command_eq; reduce_script; cbn [app];
    (match goal with
     | |- context [spawn ?c ?d ?w] => destruct (spawn c d w) as [[e|rc out] w1]
     end;
     [|destruct (rc =? 0)]; reduce_script;
     rewrite <- ?app_assoc; reflexivity).
Qed.

Lemma replace_running_container_eq (s : state W) :
  replace_running_container s
  = match spawn docker_ps None (world s) with
    | (SpawnFailed e, w) =>
        (Raised (OSError e), mk w (log s ++ [Spawned docker_ps None]))
    | (Exited rc out, w) =>
        match locale_decode out with
        | None => (Raised UnicodeDecodeError, mk w (log s ++ [Spawned docker_ps None]))
        | Some text =>
            if ((rc =? 0) && truthy (strip text))%bool then
              match spawn docker_stop None w with
              | (SpawnFailed e, w1) =>
                  (Raised (OSError e),
                   mk w1 (log s ++
                          [Spawned docker_ps None;
                           Printed (nl ++ "=== Stopping existing Archon container ===");
                           Printed ("Running: " ++ join " " docker_stop);
                           Spawned docker_stop None]))
              | (Exited _ out_stop, w1) =>
                  match spawn docker_rm None w1 with
                  | (SpawnFailed e, w2) =>
                      (Raised (OSError e),
                       mk w2 (log s ++ stopped out_stop ++
                              [Printed ("Running: " ++ join " " docker_rm);
                               Spawned docker_rm None]))
                  | (Exited _ out_rm, w2) =>
                      (Returned tt,
                       mk w2 (log s ++ stopped out_stop ++ ran docker_rm None out_rm))
                  end
              end
            else (Returned tt, mk w (log s ++ [Spawned docker_ps None]))
        end
    end.
Proof.
  unfold replace_running_container, stopped, docker_ps, docker_stop, docker_rm.
  reduce_script. normalize_script.
  destruct (spawn _ None (world s)) as [[e|rc out] w]; [reflexivity|].
  destruct (locale_decode out) as [text|]; [|reflexivity].
  destruct (rc =? 0); [|reflexivity]. cbn [andb].
  destruct (truthy (strip text)); [|reflexivity].
  reduce_script. normalize_script.
  destruct (spawn _ None w) as [[e|rc1 out1] w1];
    [reduce_script; rewrite <- ?app_assoc; reflexivity|].
  reduce_script. normalize_script.
  destruct (spawn _ None w1) as [[e|rc2 out2] w2];
    reduce_script; rewrite <- ?app_assoc; reflexivity.
Qed.
End Blocks.

#[global] Opaque replace_running_container start_container.

(** One answer of the host: taken from an assumption when one speaks about
    the request, by cases otherwise. *)
Ltac digest F :=
  unfold exits_zero, exits_nonzero, starts, container_listed, nothing_listed,
    cannot_start, fails_with_text, undecodable in F;
  cbn [fst] in F; decompose [ex and] F; clear F; subst.

(** What the assumptions say about the answer to one request. *)
Ltac pose_answers c d w :=
  repeat match goal with
         | H : answers _ ?P |- _ =>
             lazymatch goal with
             | _ : P (fst (spawn c d w)) |- _ => fail
             | _ => idtac
             end;
             pose proof (H c d w eq_refl : P (fst (spawn c d w)))
         | H : command_answers _ ?P |- _ =>
             lazymatch goal with
             | _ : P (fst (spawn c d w)) |- _ => fail
             | _ => idtac
             end;
             pose proof (H d w : P (fst (spawn c d w)))
         end.

Ltac use_facts :=
  repeat match goal with
         | F : ?P (fst (_, _)) |- _ =>
             lazymatch P with
             | writes_text => fail
             | _ => digest F
             end
         end;
  repeat match goal with
         | F : writes_text (fst (?r, _)) |- _ =>
             first [ is_var r; destruct r as [?e|?rc ?out] | idtac ];
             unfold writes_text in F; cbn [fst] in F;
             first [ match type of F with
                     | forall rc out, Exited ?a ?b = _ -> _ =>
                         let G := fresh "G" in
                         pose proof (F a b eq_refl) as G
                     end;
                     clear F
                   | clear F ]
         end.

Ltac spawn_step :=
  match goal with
  | |- context [spawn ?c ?d ?w] =>
      first
        [ pose_answers c d w;
          lazymatch goal with
          | _ : _ (fst (spawn c d w)) |- _ => idtac
          end;
          let r := fresh "r" in
          let w' := fresh "w" in
          destruct (spawn c d w) as [r w']; use_facts
        | let E := fresh "E" in
          destruct (spawn c d w) as [[?e|?rc ?out] ?w0] eqn:E ]
  end.

Ltac connect_step :=
  match goal with
  | |- context [connect_ex ?p ?w] =>
      first
        [ match goal with
          | H : port_free p |- _ =>
              let F := fresh "F" in
              pose proof (H w) as F;
              let r := fresh "r" in
              let w' := fresh "w" in
              destruct (connect_ex p w) as [r w']; digest F
          end
        | let E := fresh "E" in
          destruct (connect_ex p w) as [[?e|?n] ?w0] eqn:E ]
  end.

Ltac stat_step :=
  match goal with
  | |- context [stat ?p ?w] =>
      first
        [ match goal with
          | H : env_file_absent |- _ => rewrite (H w)
          | H : forall w, stat p w = Some _ |- _ => rewrite (H w)
          | H : env_file_present |- _ =>
              let E := fresh "E" in
              destruct (stat p w) eqn:E; [|exfalso; exact (H w E)]
          end
        | let E := fresh "E" in destruct (stat p w) eqn:E ]
  end.

Ltac branch_step :=
  match goal with
  | H : locale_decode ?o = _ |- context [locale_decode ?o] => rewrite H
  | H : locale_decode ?o <> None |- context [locale_decode ?o] =>
      let E := fresh "E" in
      destruct (locale_decode o) as [?text|] eqn:E; [|contradiction]
  | |- context [locale_decode ?o] =>
      let E := fresh "E" in destruct (locale_decode o) as [?text|] eqn:E
  | H : ?n <> 0 |- context [?n =? 0] => rewrite (proj2 (Z.eqb_neq n 0) H)
  | H : ?b = _ |- context [if ?b then _ else _] => rewrite H
  | |- context [?n =? 0] =>
      let E := fresh "E" in destruct (n =? 0) eqn:E
  | |- context [if truthy ?t then _ else _] =>
      let E := fresh "E" in destruct (truthy t) eqn:E
  end.

Ltac last_branch_step :=
  match goal with
  | |- context [if (?a =? ?b)%string then _ else _] =>
      let E := fresh "E" in destruct (a =? b)%string eqn:E
  | |- context [if ?b then _ else _] =>
      let E := fresh "E" in destruct b eqn:E
  end.

Ltac normalize_all :=
  repeat (first [ rewrite run_command_eq
                | rewrite subprocess_run_eq
                | rewrite is_port_available_eq
                | rewrite replace_running_container_eq
                | rewrite start_container_eq ];
          reduce_script; cbv zeta).

(** As [explore_all], the replace and run steps left folded. *)
Ltac explore_prefix :=
  reduce_script;
  repeat (first [ progress normalize_script
                | branch_step | stat_step | spawn_step | connect_step
                | last_branch_step ];
          reduce_script).

(** Put the assumptions on the host in the form the steps look for. *)
Ltac expose_assumptions :=
  unfold builds_succeed, ports_free, engine_available in *;
  repeat match goal with
         | H : _ /\ _ |- _ => destruct H
         | H : all_commands_start |- _ =>
             let Hs := fresh "Hs" in
             let Ht := fresh "Ht" in
             destruct H as [Hs Ht];
             pose proof (Hs "ps"); pose proof (Hs "stop"); pose proof (Hs "rm");
             pose proof (Hs "run"); clear Hs
         end.



Ltac explore_all :=
  reduce_script;
  repeat (first [ progress normalize_all
                | branch_step | stat_step | spawn_step | connect_step
                | last_branch_step ];
          reduce_script).

Section Shape.
Context {W : Type} {host : Host W}.

(** Along every path, [main_with_env] only adds to the log, and starts
    the run command at most once, with the command line of its
    environment and of the [.env] test. *)
Lemma main_with_env_shape docker_env (s : state W) :
  exists new,
    log (snd (main_with_env docker_env s)) = (log s ++ new)%list
    /\ (filter is_run (commands new) = []
        \/ exists w,
             filter is_run (commands new)
             = [run_command_line docker_env (env_args_at w)]).
Proof.
  unfold main_with_env, required_ports, env_args_at. explore_all.
  all: rewrite <- ?app_assoc; eexists; (split; [reflexivity|]).
  all: autorewrite with commands; cbn [commands app].
  all: try (left; reflexivity).
  all: right;
    match goal with
    | E : stat env_file ?w = _ |- _ => exists w; rewrite E
    end; reflexivity.
Qed.
End Shape.

Section RunLine.
Context {W : Type} {host : Host W}.

Lemma has_alias_flag_run_command_line docker_env (w : W) :
  has_alias_flag (run_command_line docker_env (env_args_at w))
  = (docker_env =? "docker-desktop")%string.
Proof.
  unfold has_alias_flag, run_command_line, env_args_at.
  destruct (stat env_file w), (docker_env =? "docker-desktop")%string;
    cbn [app has_option String.eqb Ascii.eqb Bool.eqb andb orb];
    try reflexivity;
    destruct (path_str path_sep env_file =? "--add-host")%string; reflexivity.
Qed.

Lemma env_option_run_command_line docker_env (w : W) :
  has_option "--env-file" (path_str path_sep env_file)
    (run_command_line docker_env (env_args_at w))
  = match stat env_file w with Some _ => true | None => false end
  /\ mentions "--env-file" (run_command_line docker_env (env_args_at w))
     = match stat env_file w with Some _ => true | None => false end.
Proof.
  unfold mentions, run_command_line, env_args_at.
  destruct (stat env_file w), (docker_env =? "docker-desktop")%string;
    cbn [app has_option existsb String.eqb Ascii.eqb Bool.eqb andb orb];
    rewrite ?String.eqb_refl; cbn [andb orb]; split; try reflexivity.
  all: destruct (path_str path_sep env_file =? "--env-file")%string; reflexivity.
Qed.

(** Every path of [check_docker]: it answers [True] after the two
    queries, or [False] after an error message, or lets an [OSError]
    other than [FileNotFoundError] through. *)
Lemma check_docker_cases (s : state W) :
  exists w' new,
    filter is_launch_command (commands new) = []
    /\ (check_docker s = (Returned true, mk w' (log s ++ new))
          /\ commands new = [docker_version; docker_info] /\ printed new = []
        \/ (exists msg,
               check_docker s = (Returned false, mk w' (log s ++ new))
               /\ last new (Slept 0) = Printed msg /\ In msg error_messages)
        \/ (exists e command w0,
               check_docker s = (Raised (OSError e), mk w' (log s ++ new))
               /\ fst (spawn command None w0) = SpawnFailed e
               /\ e <> FileNotFoundError)).
Proof.
  unfold check_docker, docker_version, docker_info, error_messages. explore_all.
  all: try match goal with
           | |- context [match ?e with FileNotFoundError => _ | _ => _ end] =>
               destruct e
           end; reduce_script.
  all: rewrite <- ?app_assoc; do 2 eexists; (split; [shelve|]).
  all: first
         [ left; split; [reflexivity|split; reflexivity]
         | right; left; eexists; split; [reflexivity|];
           split; [reflexivity|cbn [In]; tauto]
         | right; right;
           match goal with
           | E : spawn ?c None ?w = (SpawnFailed ?e, _) |- _ =>
               exists e, c, w; split; [reflexivity|];
               split; [rewrite E; reflexivity | discriminate]
           end ].
  Unshelve. all: reflexivity.
Qed.

(** Every path of the environment detection. *)
Lemma detect_cases (s : state W) :
  exists docker_env w' new,
    detect_windows_docker_environment s
    = (Returned docker_env, mk w' (log s ++ new))
    /\ detected docker_env
    /\ (platform_system <> "Windows" -> docker_env = "standard")
    /\ (platform_system = "Windows" -> answers "info" (info_says "wsl") ->
        docker_env = "docker-desktop")
    /\ commands new
       = (if (platform_system =? "Windows")%string then [docker_info] else [])
    /\ printed new = [].
Proof.
  unfold detect_windows_docker_environment, detected, docker_info.
  destruct (platform_system =? "Windows")%string eqn:Hp; cbn [negb].
  - apply String.eqb_eq in Hp.
    reduce_script. normalize_script.
    destruct (spawn ["docker"; "info"] None (world s)) as [[e|rc out] w1] eqn:E;
      [|destruct (locale_decode out) as [text|] eqn:Ed;
        [destruct (rc =? 0) eqn:Erc;
         [destruct (contains "wsl" (lower text)) eqn:Ewsl; cbn [orb];
          [|destruct (contains "microsoft" (lower text)); cbn [orb];
            [|destruct (contains "virtualbox" (lower text)
                        || contains "docker machine" (lower text))%bool]]|]|]];
      reduce_script; do 3 eexists; (split; [reflexivity|]);
      (split; [tauto|]); (split; [congruence|]);
      (split; [|split; reflexivity]); intros _ Hi;
      try reflexivity;
      specialize (Hi ["docker"; "info"] None (world s) eq_refl);
      rewrite E in Hi; destruct Hi as (out' & text' & Hi & Hd & Hw);
      unfold info_mentions in Hw; cbn [fst] in Hi;
      try discriminate; injection Hi as -> ->;
      rewrite Ed in Hd; try discriminate; injection Hd as ->;
      try discriminate; congruence.
  - apply String.eqb_neq in Hp.
    unfold ret. exists "standard", (world s), [].
    rewrite app_nil_r. destruct s; repeat split; auto; congruence.
Qed.

(** Every path of [main]: the run command is started at most once, with
    the command line of the detected environment. *)
Lemma main_shape (w : W) :
  filter is_run (commands (log (snd (main (start w))))) = []
  \/ exists docker_env w',
       detected docker_env
       /\ (platform_system <> "Windows" -> docker_env = "standard")
       /\ (platform_system = "Windows" -> answers "info" (info_says "wsl") ->
           docker_env = "docker-desktop")
       /\ filter is_run (commands (log (snd (main (start w)))))
          = [run_command_line docker_env (env_args_at w')].
Proof.
  assert (Hnone : forall new,
             filter is_launch_command (commands new) = [] ->
             filter is_run (commands new) = []).
  { intros new. induction (commands new) as [|c cs IH]; [reflexivity|].
    cbn [filter]. unfold is_launch_command.
    destruct (is_run c); [rewrite !orb_true_r; discriminate|].
    destruct (is_build c || is_stop c || is_rm c || false)%bool; [discriminate|].
    exact IH. }
  unfold main, bind.
  destruct (check_docker_cases (start w))
    as (w1 & new & Hl & [(Hc & Hcs & _) | [(msg & Hc & _) | (e & c & w0 & Hc & _)]]);
    rewrite Hc; cbn [negb].
  - destruct (detect_cases (mk w1 (log (start w) ++ new)))
      as (docker_env & w2 & new2 & Hd & Hdet & Hstd & Hwsl & Hcs2 & _).
    rewrite Hd.
    destruct (main_with_env_shape docker_env (mk w2 (log (mk w1 (log (start w) ++ new)) ++ new2)))
      as (new3 & Hlog & Hrun).
    rewrite Hlog. cbn [log mk start app].
    rewrite !commands_app, !filter_app, Hcs, Hcs2.
    assert (Hno : filter is_run
                    (if (platform_system =? "Windows")%string
                     then [docker_info] else []) = [])
      by (destruct (platform_system =? "Windows")%string; reflexivity).
    rewrite Hno. cbn [filter docker_version docker_info is_run subcommand nth
                       String.eqb Ascii.eqb Bool.eqb app].
    destruct Hrun as [Hrun | [w' Hrun]]; [left; exact Hrun|].
    right. exists docker_env, w'. auto.
  - left. unfold ret. cbn [snd log mk start app]. auto.
  - left. cbn [snd log mk start app]. auto.
Qed.
End RunLine.

Section Reach.
Context {W : Type} {host : Host W}.

Lemma main_after_engine_check (w : W) :
  engine_available ->
  exists docker_env s1,
    main (start w) = main_with_env docker_env s1
    /\ detected docker_env
    /\ (platform_system <> "Windows" -> docker_env = "standard")
    /\ printed (log s1) = []
    /\ commands (log s1) = engine_queries.
Proof.
  intros [Hv Hi]. unfold engine_queries.
  unfold main, check_docker, detect_windows_docker_environment, start.
  reduce_script. normalize_script.
  destruct (Hv ["docker"; "--version"] None w eq_refl) as [out E].
  destruct (spawn ["docker"; "--version"] None w) as [r w1]; simpl in E; subst r.
  reduce_script. normalize_script.
  destruct (Hi ["docker"; "info"] None w1 eq_refl) as [out2 E].
  destruct (spawn ["docker"; "info"] None w1) as [r w2]; simpl in E; subst r.
  reduce_script.
  destruct (platform_system =? "Windows")%string eqn:Hp; reduce_script.
  - normalize_script.
    destruct (Hi ["docker"; "info"] None w2 eq_refl) as [out3 E].
    destruct (spawn ["docker"; "info"] None w2) as [r w3]; simpl in E; subst r.
    reduce_script.
    apply String.eqb_eq in Hp.
    destruct (locale_decode out3) as [text|]; reduce_script;
      [destruct (contains "wsl" (lower text) || contains "microsoft" (lower text))%bool;
       [|destruct (contains "virtualbox" (lower text)
                   || contains "docker machine" (lower text))%bool]|];
      (do 2 eexists; split; [reflexivity|]; unfold detected; cbn [log];
       repeat split; auto; congruence).
  - apply String.eqb_neq in Hp.
    do 2 eexists; split; [reflexivity|]; unfold detected; cbn [log];
      repeat split; auto.
Qed.

(** With the engine up, the ports free and both builds succeeding,
    [main] arrives at the replace step, having started the engine
    queries and the two builds. *)
Lemma main_reaches_replace_step (w : W) :
  engine_available -> ports_free -> builds_succeed ->
  exists docker_env w1 s2,
    main (start w)
    = (replace_running_container ;; start_container docker_env (env_args_at w1)) s2
    /\ detected docker_env
    /\ (platform_system <> "Windows" -> docker_env = "standard")
    /\ commands (log s2) = (engine_queries ++ [build_mcp; build_archon])%list.
Proof.
  intros He Hp Hb.
  destruct (main_after_engine_check w He) as (e & s1 & Hmain & Hdet & Hstd & _ & Hc).
  rewrite Hmain. clear Hmain He. expose_assumptions.
  unfold main_with_env, required_ports, env_args_at.
  explore_prefix.
  all: exists e; match goal with E : stat env_file ?w = _ |- _ => exists w; rewrite E end;
    eexists; (split; [reflexivity|]); repeat (split; [assumption|]);
    cbn [log]; autorewrite with commands; rewrite Hc; cbn [commands];
    rewrite ?app_nil_r, <- ?app_assoc; reflexivity.
Qed.
End Reach.

(** ** The properties *)

Section Properties.
Context {W : Type} {host : Host W}.

(** An unavailable engine: [main] returns 1 after the engine queries. *)
Lemma engine_unavailable_returns (w : W) :
  engine_missing w \/ daemon_unreachable w ->
  exists s',
    main (start w) = (Returned 1, s')
    /\ filter is_launch_command (commands (log s')) = [].
Proof.
  unfold engine_missing, daemon_unreachable, docker_version, docker_info.
  intros [Hm | (out & w1 & Hv & rc & out' & Hi & Hrc)]; unfold_script; normalize_script.
  - destruct (spawn ["docker"; "--version"] None w) as [r w1]; simpl in Hm; subst r.
    reduce_script. eexists; split; reflexivity.
  - rewrite Hv. reduce_script. normalize_script.
    destruct (spawn ["docker"; "info"] None w1) as [r w2]; simpl in Hi; subst r.
    apply Z.eqb_neq in Hrc; rewrite Hrc.
    reduce_script. eexists; split; reflexivity.
Qed.

(** C3. When the engine binary is absent, or the daemon does not answer
    the info query, [main] returns 1, the process exits with a non-zero
    status, and no build, stop, remove or run command is started. *)
Theorem engine_unavailable_aborts (w : W) :
  engine_missing w \/ daemon_unreachable w ->
  exists s',
    main (start w) = (Returned 1, s')
    /\ exit_status (fst (main (start w))) <> 0
    /\ filter is_launch_command (commands (log s')) = [].
Proof.
  intros H. destruct (engine_unavailable_returns w H) as (s' & Hmain & Hnone).
  exists s'. rewrite Hmain. repeat split; [discriminate|exact Hnone].
Qed.

(** C4. The environment detection answers "standard" on every platform
    other than Windows. On Windows, when the daemon-info query exits with
    status 0 and its output is text in the encoding of the locale, it
    answers "docker-desktop" when the lower case of that text
    ([text.lower()]) contains "wsl" or "microsoft", "docker-toolbox" when
    it contains neither but contains "virtualbox" or "docker machine",
    and "docker-desktop" when it contains none of the four. It answers
    "docker-desktop" too when the query fails: when it cannot be started,
    when it exits with an error status, and when its output cannot be
    decoded. *)
Theorem detect_environment (s : state W) :
  (platform_system <> "Windows" ->
     fst (detect_windows_docker_environment s) = Returned "standard")
  /\ (platform_system = "Windows" ->
      forall out text,
        fst (spawn docker_info None (world s)) = Exited 0 out ->
        locale_decode out = Some text ->
        fst (detect_windows_docker_environment s)
        = Returned
            (if (contains "wsl" (lower text) || contains "microsoft" (lower text))%bool
             then "docker-desktop"
             else if (contains "virtualbox" (lower text)
                      || contains "docker machine" (lower text))%bool
             then "docker-toolbox"
             else "docker-desktop"))
  /\ (platform_system = "Windows" ->
      (exists e, fst (spawn docker_info None (world s)) = SpawnFailed e)
      \/ exits_nonzero (fst (spawn docker_info None (world s)))
      \/ (exists rc out,
             fst (spawn docker_info None (world s)) = Exited rc out
             /\ locale_decode out = None) ->
      fst (detect_windows_docker_environment s) = Returned "docker-desktop").
Proof.
  unfold docker_info.
  repeat split.
  - intros Hp. apply String.eqb_neq in Hp.
    unfold detect_windows_docker_environment. now rewrite Hp.
  - intros Hp out text Hi Hd. unfold_script. rewrite Hp.
    cbn [String.eqb Ascii.eqb Bool.eqb negb].
    normalize_script.
    destruct (spawn ["docker"; "info"] None (world s)) as [r w']; simpl in Hi; subst r.
    reduce_script. rewrite Hd. reduce_script.
    destruct (contains "wsl" (lower text) || contains "microsoft" (lower text))%bool;
      [reflexivity|].
    destruct (contains "virtualbox" (lower text)
              || contains "docker machine" (lower text))%bool; reflexivity.
  - intros Hp Hi. unfold_script. rewrite Hp. cbn [String.eqb Ascii.eqb Bool.eqb negb].
    normalize_script.
    destruct (spawn ["docker"; "info"] None (world s)) as [r w'].
    simpl in Hi.
    destruct Hi as [[e He] | [(rc & out & He & Hrc) | (rc & out & He & Hd)]]; subst r.
    + reflexivity.
    + reduce_script. apply Z.eqb_neq in Hrc.
      destruct (locale_decode out); reduce_script; [rewrite Hrc|]; reflexivity.
    + reduce_script. rewrite Hd. reflexivity.
Qed.

Lemma port_conflict_aborts (in_use : Z -> bool) docker_env (s : state W) :
  probes_answer in_use ->
  existsb in_use required_ports = true ->
  exists w',
    main_with_env docker_env s
    = (Returned 1,
       mk w' (log s ++
              [Printed ("Detected Docker environment: " ++ docker_env);
               Probed 8501; Probed 8100;
               Printed ("Error: The following ports are already in use: "
                        ++ str_int_list (filter in_use required_ports));
               Printed "Please stop the services using these ports or modify the port mappings."])).
Proof.
  intros Hp Hsome. unfold main_with_env, required_ports in *. reduce_script.
  normalize_script.
  destruct (Hp 8501 (world s) (or_introl eq_refl)) as (n1 & E1 & B1).
  destruct (connect_ex 8501 (world s)) as [r w1]; simpl in E1; subst r.
  reduce_script. normalize_script.
  destruct (Hp 8100 w1 (or_intror (or_introl eq_refl))) as (n2 & E2 & B2).
  destruct (connect_ex 8100 w1) as [r w2]; simpl in E2; subst r.
  reduce_script. rewrite B1, B2. cbn [filter existsb] in *.
  destruct (in_use 8501), (in_use 8100); try discriminate;
    reduce_script; eexists; unfold mk; rewrite <- !app_assoc; reflexivity.
Qed.

(** C2. For every way [in_use] of occupying the required ports that
    occupies at least one of them: once the engine check has passed,
    [main] returns 1, no build command (no build, stop, remove or run
    command at all) has been started, and the error message lists
    exactly the occupied required ports, in the order 8501, 8100:
    "[8501, 8100]", "[8501]" or "[8100]". *)
Theorem occupied_port_aborts (in_use : Z -> bool) (w : W) :
  engine_available ->
  probes_answer in_use ->
  existsb in_use required_ports = true ->
  exists docker_env s',
    main (start w) = (Returned 1, s')
    /\ filter is_build (commands (log s')) = []
    /\ filter is_launch_command (commands (log s')) = []
    /\ printed (log s')
       = [ "Detected Docker environment: " ++ docker_env;
           "Error: The following ports are already in use: "
           ++ (if in_use 8501
               then if in_use 8100 then "[8501, 8100]" else "[8501]"
               else "[8100]");
           "Please stop the services using these ports or modify the port mappings." ].
Proof.
  intros He Hp Hsome.
  destruct (main_after_engine_check w He) as (e & s1 & Hmain & _ & _ & Hpr & Hc).
  destruct (port_conflict_aborts in_use e s1 Hp Hsome) as [w' Hrun].
  exists e. eexists. split; [rewrite Hmain; exact Hrun|].
  unfold mk; cbn [log]. rewrite commands_app, printed_app, Hpr, Hc.
  unfold engine_queries.
  split; [|split].
  - destruct (platform_system =? "Windows")%string; reflexivity.
  - destruct (platform_system =? "Windows")%string; reflexivity.
  - unfold required_ports in *. cbn [existsb filter] in *.
    destruct (in_use 8501), (in_use 8100); try discriminate Hsome; reflexivity.
Qed.

End Properties.

Section EndToEnd.
Context {W : Type} {host : Host W}.

(** C1, amended. With the engine present and the daemon reachable, both
    required ports free, no [.env] beside the script, both builds
    returning 0, no container reported by the container list and the run
    command returning 0: two build commands, no stop or remove command,
    one run command without an environment-file argument, and exit
    code 0. *)
Theorem end_to_end_success (w : W) :
  engine_available -> ports_free -> env_file_absent -> builds_succeed ->
  answers "ps" nothing_listed -> answers "run" exits_zero ->
  exists docker_env s',
    main (start w) = (Returned 0, s')
    /\ exit_status (fst (main (start w))) = 0
    /\ commands (log s')
       = (engine_queries
            ++ [build_mcp; build_archon; docker_ps; run_command_line docker_env []])%list
    /\ List.length (filter is_build (commands (log s'))) = 2%nat
    /\ filter is_stop_or_rm (commands (log s')) = []
    /\ filter is_run (commands (log s')) = [run_command_line docker_env []]
    /\ mentions "--env-file" (run_command_line docker_env []) = false.
Proof.
  intros He Hp Henv Hb Hps Hrun.
  destruct (main_reaches_replace_step w He Hp Hb)
    as (e & w1 & s2 & Hmain & _ & _ & Hc).
  rewrite Hmain. unfold env_args_at. rewrite (Henv w1).
  explore_all.
  exists e. eexists. split; [reflexivity|]. split; [reflexivity|].
  cbn [log]. autorewrite with commands. rewrite Hc. cbn [commands].
  rewrite ?app_nil_r, <- ?app_assoc. split; [reflexivity|].
  unfold engine_queries, run_command_line.
  destruct (platform_system =? "Windows")%string,
           (e =? "docker-desktop")%string; repeat split; reflexivity.
Qed.
End EndToEnd.

Section Replace.
Context {W : Type} {host : Host W}.

End Replace.

Section EnvFile.
Context {W : Type} {host : Host W}.

(** With the engine up, the ports free, the builds succeeding and every
    command starting, the run command is started, once. *)
Lemma run_step_is_reached (w : W) :
  engine_available -> ports_free -> builds_succeed -> all_commands_start ->
  exists docker_env w1,
    filter is_run (commands (log (snd (main (start w)))))
    = [run_command_line docker_env (env_args_at w1)].
Proof.
  intros He Hp Hb Hall.
  destruct (main_reaches_replace_step w He Hp Hb)
    as (e & w1 & s2 & Hmain & _ & _ & Hc).
  exists e, w1. rewrite Hmain.
  assert (Hq : filter is_run engine_queries = []).
  { unfold engine_queries.
    destruct (platform_system =? "Windows")%string; reflexivity. }
  assert (Hr : is_run (run_command_line e (env_args_at w1)) = true).
  { unfold run_command_line. reflexivity. }
  expose_assumptions. explore_all.
  all: cbn [snd log]; autorewrite with commands; rewrite Hc; cbn [commands];
    rewrite ?app_nil_r, <- ?app_assoc;
    rewrite !filter_app, Hq; cbn [filter app]; rewrite Hr; reflexivity.
Qed.


(** C10. Whatever kind of file-system entry [.env] is (a directory
    included), the run command carries [--env-file] followed by its
    path. *)
Theorem env_file_kind_is_not_checked (kind : file_kind) (w : W) :
  (forall w', stat env_file w' = Some kind) ->
  engine_available -> ports_free -> builds_succeed -> all_commands_start ->
  exists command,
    filter is_run (commands (log (snd (main (start w))))) = [command]
    /\ has_option "--env-file" (path_str path_sep env_file) command = true.
Proof.
  intros Hkind He Hp Hb Hall.
  destruct (run_step_is_reached w He Hp Hb Hall) as (e & w1 & Hrun).
  eexists. split; [exact Hrun|].
  rewrite (proj1 (env_option_run_command_line e w1)).
  now rewrite (Hkind w1).
Qed.

(** C5. A run command carries the host-gateway alias exactly when the
    environment is "docker-desktop"; on Windows with "wsl" in the
    daemon-info text the run command of [main] carries it; on other
    platforms it never does. *)
Theorem alias_flag_iff_docker_desktop :
  (forall docker_env (w : W) command,
      In command (commands (log (snd (main_with_env docker_env (start w))))) ->
      is_run command = true ->
      (has_alias_flag command = true <-> docker_env = "docker-desktop"))
  /\ (platform_system = "Windows" -> answers "info" (info_says "wsl") ->
      forall (w : W) command,
        In command (commands (log (snd (main (start w))))) ->
        is_run command = true -> has_alias_flag command = true)
  /\ (platform_system <> "Windows" ->
      forall (w : W) command,
        In command (commands (log (snd (main (start w))))) ->
        is_run command = true -> has_alias_flag command = false).
Proof.
  split; [|split].
  - intros e w command Hin Hr.
    assert (Hf : In command
                   (filter is_run
                      (commands (log (snd (main_with_env e (start w)))))))
      by (apply filter_In; auto).
    destruct (main_with_env_shape e (start w)) as (new & Hlog & Hrun).
    rewrite Hlog in Hf. cbn [start log app] in Hf.
    destruct Hrun as [Hrun | [w' Hrun]]; rewrite Hrun in Hf; [destruct Hf|].
    destruct Hf as [<- | []].
    rewrite has_alias_flag_run_command_line. apply String.eqb_eq.
  - intros Hp Hi w command Hin Hr.
    assert (Hf : In command (filter is_run (commands (log (snd (main (start w)))))))
      by (apply filter_In; auto).
    destruct (main_shape w) as [Hnone | (e & w' & _ & _ & He & Hrun)].
    + rewrite Hnone in Hf. destruct Hf.
    + rewrite Hrun in Hf. destruct Hf as [<- | []].
      rewrite has_alias_flag_run_command_line, (He Hp Hi). reflexivity.
  - intros Hp w command Hin Hr.
    assert (Hf : In command (filter is_run (commands (log (snd (main (start w)))))))
      by (apply filter_In; auto).
    destruct (main_shape w) as [Hnone | (e & w' & _ & He & _ & Hrun)].
    + rewrite Hnone in Hf. destruct Hf.
    + rewrite Hrun in Hf. destruct Hf as [<- | []].
      rewrite has_alias_flag_run_command_line, (He Hp). reflexivity.
Qed.
End EnvFile.

Section NoException.
Context {W : Type} {host : Host W}.



End NoException.

Section Neutral.
Context {W : Type} {host : Host W}.

Lemma neutral_app (l1 l2 : list event) :
  neutral (l1 ++ l2) = (neutral l1 ++ neutral l2)%list.
Proof.
  induction l1 as [|[line|c d|p|n] l1 IH]; cbn [neutral app]; auto.
  - destruct (env_dependent_line line); cbn [app]; now rewrite IH.
  - now rewrite IH.
  - now rewrite IH.
  - now rewrite IH.
Qed.

Lemma commands_neutral (l : list event) :
  commands (neutral l) = map erase_alias (commands l).
Proof.
  induction l as [|[line|c d|p|n] l IH]; cbn [neutral commands map]; auto.
  - destruct (env_dependent_line line); auto.
  - now rewrite IH.
Qed.

Lemma neutral_detected docker_env :
  neutral [Printed ("Detected Docker environment: " ++ docker_env)] = [].
Proof. reflexivity. Qed.

Lemma neutral_start_banner docker_env :
  neutral (start_banner docker_env)
  = [Printed (nl ++ "=== Starting Archon container ===")].
Proof.
  unfold start_banner.
  destruct (docker_env =? "docker-desktop")%string;
    [|destruct (docker_env =? "docker-toolbox")%string]; reflexivity.
Qed.

Lemma neutral_access_instructions docker_env :
  neutral (access_instructions docker_env)
  = [Slept 2; Printed (nl ++ "=== Archon is now running! ===");
     Printed "-> MCP container is ready to use - see the MCP tab in the UI.";
     Printed (nl ++ "To stop Archon, run: docker stop archon-container && docker rm archon-container")].
Proof.
  unfold access_instructions.
  destruct (docker_env =? "docker-toolbox")%string; reflexivity.
Qed.

Lemma erase_alias_run_command_line docker_env env_args :
  env_args_form env_args ->
  erase_alias (run_command_line docker_env env_args)
  = run_command_line "standard" env_args.
Proof.
  intros [-> | [p ->]]; unfold run_command_line;
    destruct (docker_env =? "docker-desktop")%string;
    cbn [app erase_alias String.eqb Ascii.eqb Bool.eqb andb];
    try reflexivity;
    destruct (p =? "--add-host")%string; reflexivity.
Qed.

Lemma neutral_run_failed docker_env env_args :
  env_args_form env_args ->
  neutral [Printed ("Running: " ++ join " " (run_command_line docker_env env_args));
           Spawned (run_command_line docker_env env_args) None]
  = [Spawned (run_command_line "standard" env_args) None].
Proof.
  intros H. cbn [neutral].
  rewrite (erase_alias_run_command_line _ _ H).
  reflexivity.
Qed.

Lemma neutral_ran_run docker_env env_args out :
  env_args_form env_args ->
  neutral (ran (run_command_line docker_env env_args) None out)
  = Spawned (run_command_line "standard" env_args) None
      :: neutral (map (fun line => Printed (strip (decode_utf8_replace line)))
                   (readlines out)).
Proof.
  intros H. unfold ran. rewrite neutral_app.
  rewrite (neutral_run_failed _ _ H). reflexivity.
Qed.
End Neutral.

Create Rewrite HintDb neutral.
#[global] Hint Rewrite @neutral_app @neutral_start_banner
  @neutral_access_instructions : neutral.

Section Noninterference.
Context {W : Type} {host : Host W}.

Lemma is_run_run_command_line docker_env env_args :
  is_run (run_command_line docker_env env_args) = true.
Proof. reflexivity. Qed.

Lemma main_with_env_pair docker_env1 docker_env2 (s : state W) :
  run_answer_ignores_alias ->
  exists o w l1 l2,
    main_with_env docker_env1 s = (o, mk w l1)
    /\ main_with_env docker_env2 s = (o, mk w l2)
    /\ neutral l1 = neutral l2
    /\ filter (fun c => negb (is_run c)) (commands l1)
       = filter (fun c => negb (is_run c)) (commands l2).
Proof.
  intros Hblind.
  assert (Hform0 : env_args_form []) by (left; reflexivity).
  assert (Hform1 : env_args_form ["--env-file"; path_str path_sep env_file])
    by (right; eexists; reflexivity).
  unfold main_with_env, required_ports.
  reduce_script;
  repeat (first [ progress normalize_all
                | match goal with
                  | |- context [spawn (run_command_line docker_env1 ?a) None ?w] =>
                      rewrite (Hblind docker_env1 docker_env2 a w)
                  end
                | branch_step | stat_step | spawn_step | connect_step
                | last_branch_step ];
          reduce_script).
  all: do 4 eexists; (split; [reflexivity|]); (split; [reflexivity|]).
  all: split;
    [ autorewrite with neutral;
      rewrite ?neutral_detected;
      rewrite ?neutral_ran_run, ?neutral_run_failed by assumption;
      reflexivity
    | autorewrite with commands; cbn [commands app];
      rewrite ?filter_app; cbn [filter];
      rewrite ?is_run_run_command_line; reflexivity ].
Qed.

(** C9, amended. For any two environment values, from the same state
    and with a host whose answer to the run command does not depend on
    the alias, [main] ends the same way (same exit code or same
    exception) in the same world, starts the same commands up to the
    alias in the run command (the builds, the stop and the remove are
    identical), and logs the same events but for the lines that name the
    environment: the report of the detection, the echo of the run
    command, the Docker Toolbox note before the run step and the access
    instructions after it. *)
Theorem environment_changes_alias_and_texts_only
    docker_env1 docker_env2 (s : state W) :
  run_answer_ignores_alias ->
  let r1 := main_with_env docker_env1 s in
  let r2 := main_with_env docker_env2 s in
  fst r1 = fst r2
  /\ world (snd r1) = world (snd r2)
  /\ map erase_alias (commands (log (snd r1)))
     = map erase_alias (commands (log (snd r2)))
  /\ filter (fun c => negb (is_run c)) (commands (log (snd r1)))
     = filter (fun c => negb (is_run c)) (commands (log (snd r2)))
  /\ neutral (log (snd r1)) = neutral (log (snd r2)).
Proof.
  intros Hblind. cbv zeta.
  destruct (main_with_env_pair docker_env1 docker_env2 s Hblind)
    as (o & w & l1 & l2 & -> & -> & Hn & Hf).
  cbn [fst snd world log mk]. repeat split; auto.
  now rewrite <- !commands_neutral, Hn.
Qed.
End Noninterference.

(** ** The properties on concrete hosts *)

(** What the table-driven hosts answer. *)
Section Scenarios.
Variable sc : scenario.

Lemma scenario_answers (sub : string) (P : spawn_result -> Prop) :
  (forall command, subcommand command = sub -> P (scenario_spawn sc command)) ->
  answers (host := scenario_host sc) sub P.
Proof. intros H command cwd w Hsub. exact (H command Hsub). Qed.

Lemma scenario_version command :
  subcommand command = "--version" -> scenario_spawn sc command = sc_version sc.
Proof. intros H. unfold scenario_spawn. now rewrite H. Qed.

Lemma scenario_info command :
  subcommand command = "info" -> scenario_spawn sc command = sc_info sc.
Proof. intros H. unfold scenario_spawn. now rewrite H. Qed.

Lemma scenario_build command :
  subcommand command = "build" ->
  scenario_spawn sc command = sc_build_mcp sc
  \/ scenario_spawn sc command = sc_build_archon sc.
Proof.
  intros H. unfold scenario_spawn. rewrite H. cbn.
  destruct (nth 3 command EmptyString =? "archon-mcp:latest")%string; auto.
Qed.

Lemma scenario_ps command :
  subcommand command = "ps" -> scenario_spawn sc command = sc_ps sc.
Proof. intros H. unfold scenario_spawn. now rewrite H. Qed.

Lemma scenario_stop command :
  subcommand command = "stop" -> scenario_spawn sc command = sc_stop sc.
Proof. intros H. unfold scenario_spawn. now rewrite H. Qed.

Lemma scenario_rm command :
  subcommand command = "rm" -> scenario_spawn sc command = sc_rm sc.
Proof. intros H. unfold scenario_spawn. now rewrite H. Qed.

Lemma scenario_run command :
  subcommand command = "run" -> scenario_spawn sc command = sc_run sc.
Proof. intros H. unfold scenario_spawn. now rewrite H. Qed.

Lemma scenario_engine_available out1 out2 :
  sc_version sc = Exited 0 out1 -> sc_info sc = Exited 0 out2 ->
  engine_available (host := scenario_host sc).
Proof.
  intros H1 H2. split; apply scenario_answers; intros command H.
  - rewrite (scenario_version _ H), H1. eexists; reflexivity.
  - rewrite (scenario_info _ H), H2. eexists; reflexivity.
Qed.

Lemma scenario_ports_free :
  sc_listeners sc = [] -> ports_free (host := scenario_host sc).
Proof.
  intros H. split; intros w; exists 111; cbn; rewrite H; cbn; split;
    [reflexivity|discriminate|reflexivity|discriminate].
Qed.

Lemma scenario_builds_succeed out1 out2 :
  sc_build_mcp sc = Exited 0 out1 -> sc_build_archon sc = Exited 0 out2 ->
  builds_succeed (host := scenario_host sc).
Proof.
  intros H1 H2. apply scenario_answers. intros command H.
  destruct (scenario_build _ H) as [-> | ->]; eexists; eassumption.
Qed.

Lemma scenario_all_commands_start :
  (forall r, In r [sc_version sc; sc_info sc; sc_build_mcp sc; sc_build_archon sc;
                   sc_ps sc; sc_stop sc; sc_rm sc; sc_run sc] ->
             starts r) ->
  (forall rc out, sc_ps sc = Exited rc out -> utf8 out = true) ->
  all_commands_start (host := scenario_host sc).
Proof.
  intros H Htext. split.
  - intros sub command cwd w Hsub. cbn [spawn scenario_host fst].
    unfold scenario_spawn.
    repeat match goal with
           | |- context [if ?b then _ else _] => destruct b
           end;
      try (apply H; cbn [In]; tauto).
    do 2 eexists; reflexivity.
  - apply scenario_answers. intros command Hsub rc out Hps.
    rewrite (scenario_ps _ Hsub) in Hps.
    cbn [locale_decode scenario_host]. rewrite (Htext rc out Hps). discriminate.
Qed.


Lemma scenario_run_answer_ignores_alias :
  run_answer_ignores_alias (host := scenario_host sc).
Proof. intros e1 e2 args w. reflexivity. Qed.


Lemma scenario_probes_never_raise :
  probes_never_raise (host := scenario_host sc).
Proof. intros port w e. discriminate. Qed.
End Scenarios.

(** Every answer of a list of answers is a process that ran. *)
(** The answer of a table: a process that exited with status 0 and
    wrote the text the goal asks for. *)
Ltac wrote_text :=
  do 2 eexists; split; [reflexivity|split; vm_compute; reflexivity].

(** The output of the container list of a table is UTF-8. *)
Ltac list_is_text :=
  let rc := fresh in let out := fresh in let H := fresh in
  intros rc out H; injection H as <- <-; reflexivity.

Ltac all_start :=
  let r := fresh in let H := fresh in
  intros r H; cbn [In] in H;
  repeat (destruct H as [<- | H]; [do 2 eexists; reflexivity|]);
  destruct H.

(** C1, amended, on the host [happy]. *)
Lemma end_to_end_success_witness :
  exists docker_env s',
    main (host := scenario_host happy) (start tt) = (Returned 0, s')
    /\ exit_status (fst (main (host := scenario_host happy) (start tt))) = 0
    /\ commands (log s')
       = (engine_queries (host := scenario_host happy)
            ++ [build_mcp; build_archon; docker_ps; run_command_line docker_env []])%list
    /\ List.length (filter is_build (commands (log s'))) = 2%nat
    /\ filter is_stop_or_rm (commands (log s')) = []
    /\ filter is_run (commands (log s')) = [run_command_line docker_env []]
    /\ mentions "--env-file" (run_command_line docker_env []) = false.
Proof.
  apply (end_to_end_success (host := scenario_host happy) tt).
  - apply (scenario_engine_available happy _ _ eq_refl eq_refl).
  - apply (scenario_ports_free happy eq_refl).
  - intros w. reflexivity.
  - apply (scenario_builds_succeed happy _ _ eq_refl eq_refl).
  - apply scenario_answers. intros command H. rewrite (scenario_ps happy _ H).
    wrote_text.
  - apply scenario_answers. intros command H. rewrite (scenario_run happy _ H).
    eexists; reflexivity.
Defined.

(** C1 as stated fails: each of its givens holds on this host, a
    container is running and the run command is refused; [main] starts a
    stop and a remove command and returns 1. *)
Lemma end_to_end_fails_when_container_runs :
  engine_available (host := scenario_host running_and_run_refused)
  /\ ports_free (host := scenario_host running_and_run_refused)
  /\ env_file_absent (host := scenario_host running_and_run_refused)
  /\ builds_succeed (host := scenario_host running_and_run_refused)
  /\ fst (main (host := scenario_host running_and_run_refused) (start tt)) = Returned 1
  /\ filter is_stop_or_rm
       (commands (log (snd (main (host := scenario_host running_and_run_refused)
                              (start tt)))))
     = [docker_stop; docker_rm]
  /\ ~ (exists s',
           main (host := scenario_host running_and_run_refused) (start tt)
           = (Returned 0, s')
           /\ List.length (filter is_build (commands (log s'))) = 2%nat
           /\ filter is_stop_or_rm (commands (log s')) = []
           /\ exists run,
                filter is_run (commands (log s')) = [run]
                /\ mentions "--env-file" run = false).
Proof.
  split; [apply (scenario_engine_available running_and_run_refused _ _ eq_refl eq_refl)|].
  split; [apply (scenario_ports_free running_and_run_refused eq_refl)|].
  split; [intros w; reflexivity|].
  split; [apply (scenario_builds_succeed running_and_run_refused _ _ eq_refl eq_refl)|].
  split; [vm_compute; reflexivity|].
  split; [vm_compute; reflexivity|].
  intros (s' & H & _).
  apply (f_equal fst) in H. vm_compute in H. discriminate H.
Qed.

(** C2 with a listener on port 8501, on port 8100, and on both. *)
Lemma occupied_port_aborts_witness :
  (exists docker_env s',
      main (host := scenario_host busy_8501) (start tt) = (Returned 1, s')
      /\ filter is_build (commands (log s')) = []
      /\ filter is_launch_command (commands (log s')) = []
      /\ printed (log s')
         = [ "Detected Docker environment: " ++ docker_env;
             "Error: The following ports are already in use: [8501]";
             "Please stop the services using these ports or modify the port mappings." ])
  /\ (exists docker_env s',
         main (host := scenario_host busy_8100) (start tt) = (Returned 1, s')
         /\ filter is_build (commands (log s')) = []
         /\ filter is_launch_command (commands (log s')) = []
         /\ printed (log s')
            = [ "Detected Docker environment: " ++ docker_env;
                "Error: The following ports are already in use: [8100]";
                "Please stop the services using these ports or modify the port mappings." ])
  /\ (exists docker_env s',
         main (host := scenario_host busy_both) (start tt) = (Returned 1, s')
         /\ filter is_build (commands (log s')) = []
         /\ filter is_launch_command (commands (log s')) = []
         /\ printed (log s')
            = [ "Detected Docker environment: " ++ docker_env;
                "Error: The following ports are already in use: [8501, 8100]";
                "Please stop the services using these ports or modify the port mappings." ]).
Proof.
  split; [|split].
  - apply (occupied_port_aborts (host := scenario_host busy_8501)
             (fun p => p =? 8501) tt).
    + apply (scenario_engine_available busy_8501 _ _ eq_refl eq_refl).
    + intros p w [<- | [<- | []]]; eexists; split; reflexivity.
    + reflexivity.
  - apply (occupied_port_aborts (host := scenario_host busy_8100)
             (fun p => p =? 8100) tt).
    + apply (scenario_engine_available busy_8100 _ _ eq_refl eq_refl).
    + intros p w [<- | [<- | []]]; eexists; split; reflexivity.
    + reflexivity.
  - apply (occupied_port_aborts (host := scenario_host busy_both)
             (fun p => (p =? 8501) || (p =? 8100))%bool tt).
    + apply (scenario_engine_available busy_both _ _ eq_refl eq_refl).
    + intros p w [<- | [<- | []]]; eexists; split; reflexivity.
    + reflexivity.
Defined.

(** C3 without the [docker] binary. *)
Lemma engine_unavailable_aborts_witness :
  exists s',
    main (host := scenario_host no_docker) (start tt) = (Returned 1, s')
    /\ exit_status (fst (main (host := scenario_host no_docker) (start tt))) <> 0
    /\ filter is_launch_command (commands (log s')) = [].
Proof.
  apply (engine_unavailable_aborts (host := scenario_host no_docker) tt).
  left. reflexivity.
Defined.

(** C4 on Linux; on Windows with WSL 2, with Docker Toolbox, with
    Docker Toolbox named in capitals and with a Kelvin sign, with a
    daemon-info query that exits with an error status, and with one whose
    output cannot be decoded. *)
Lemma detect_environment_witness :
  fst (detect_windows_docker_environment (host := scenario_host happy) (start tt))
  = Returned "standard"
  /\ fst (detect_windows_docker_environment (host := scenario_host windows_wsl) (start tt))
     = Returned "docker-desktop"
  /\ fst (detect_windows_docker_environment (host := scenario_host windows_toolbox) (start tt))
     = Returned "docker-toolbox"
  /\ fst (detect_windows_docker_environment (host := scenario_host windows_kelvin) (start tt))
     = Returned "docker-toolbox"
  /\ fst (detect_windows_docker_environment (host := scenario_host windows_info_error) (start tt))
     = Returned "docker-desktop"
  /\ fst (detect_windows_docker_environment
            (host := scenario_host windows_info_undecodable) (start tt))
     = Returned "docker-desktop".
Proof.
  split; [|split; [|split; [|split; [|split]]]].
  - apply (proj1 (detect_environment (host := scenario_host happy) (start tt))).
    discriminate.
  - exact (proj1 (proj2 (detect_environment (host := scenario_host windows_wsl) (start tt)))
             eq_refl _ _ eq_refl eq_refl).
  - exact (proj1 (proj2 (detect_environment (host := scenario_host windows_toolbox) (start tt)))
             eq_refl _ _ eq_refl eq_refl).
  - exact (proj1 (proj2 (detect_environment (host := scenario_host windows_kelvin) (start tt)))
             eq_refl _ _ eq_refl eq_refl).
  - apply (proj2 (proj2 (detect_environment (host := scenario_host windows_info_error) (start tt)))
             eq_refl).
    right. left. exists 1, "error during connect". split; [reflexivity|discriminate].
  - apply (proj2 (proj2 (detect_environment
                           (host := scenario_host windows_info_undecodable) (start tt)))
             eq_refl).
    right. right. do 2 eexists. split; reflexivity.
Defined.

(** C5 for the environment "docker-desktop", on Windows with WSL 2, and
    on Linux. *)
Lemma alias_flag_iff_docker_desktop_witness :
  (has_alias_flag (run_command_line "docker-desktop" []) = true
   <-> "docker-desktop" = "docker-desktop")
  /\ has_alias_flag (run_command_line "docker-desktop" []) = true
  /\ has_alias_flag (run_command_line "standard" []) = false.
Proof.
  split; [|split].
  - apply (proj1 (alias_flag_iff_docker_desktop (host := scenario_host happy))
             "docker-desktop" tt).
    + vm_compute. tauto.
    + reflexivity.
  - apply (proj1 (proj2 (alias_flag_iff_docker_desktop (host := scenario_host windows_wsl)))
             eq_refl) with (w := tt).
    + apply scenario_answers. intros command H. rewrite (scenario_info windows_wsl _ H).
      wrote_text.
    + vm_compute. tauto.
    + reflexivity.
  - apply (proj2 (proj2 (alias_flag_iff_docker_desktop (host := scenario_host happy))))
      with (w := tt).
    + discriminate.
    + vm_compute. tauto.
    + reflexivity.
Defined.


(** C10 with a directory named [.env]. *)
Lemma env_file_kind_is_not_checked_witness :
  exists command,
    filter is_run
      (commands (log (snd (main (host := scenario_host (with_env Directory))
                             (start tt)))))
    = [command]
    /\ has_option "--env-file" "/opt/archon/.env" command = true.
Proof.
  apply (env_file_kind_is_not_checked (host := scenario_host (with_env Directory))
           Directory tt).
  - intros w. reflexivity.
  - apply (scenario_engine_available (with_env Directory) _ _ eq_refl eq_refl).
  - apply (scenario_ports_free (with_env Directory) eq_refl).
  - apply (scenario_builds_succeed (with_env Directory) _ _ eq_refl eq_refl).
  - apply scenario_all_commands_start; [all_start|list_is_text].
Defined.





(** C9, amended, for "standard" and "docker-desktop" on the host
    [happy]. *)
Lemma environment_changes_alias_and_texts_only_witness :
  let r1 := main_with_env (host := scenario_host happy) "standard" (start tt) in
  let r2 := main_with_env (host := scenario_host happy) "docker-desktop" (start tt) in
  fst r1 = fst r2
  /\ world (snd r1) = world (snd r2)
  /\ map erase_alias (commands (log (snd r1)))
     = map erase_alias (commands (log (snd r2)))
  /\ filter (fun c => negb (is_run c)) (commands (log (snd r1)))
     = filter (fun c => negb (is_run c)) (commands (log (snd r2)))
  /\ neutral (log (snd r1)) = neutral (log (snd r2)).
Proof.
  apply (environment_changes_alias_and_texts_only (host := scenario_host happy)
           "standard" "docker-desktop" (start tt)).
  apply scenario_run_answer_ignores_alias.
Defined.

(** C9 as stated fails: "standard" and "docker-toolbox" start the same
    commands, no alias in either run command, and differ in a line
    printed before the run command is started. *)
Lemma toolbox_note_is_printed_before_the_run :
  let l1 := log (snd (main_with_env (host := scenario_host happy) "standard" (start tt))) in
  let l2 := log (snd (main_with_env (host := scenario_host happy) "docker-toolbox" (start tt))) in
  commands l1 = commands l2
  /\ (exists before after,
         l2 = (before ++ Spawned (run_command_line "docker-toolbox" []) None :: after)%list
         /\ In (Printed toolbox_note) before)
  /\ ~ In (Printed toolbox_note) l1.
Proof.
  cbv zeta. split; [vm_compute; reflexivity|]. split.
  - exists (firstn 16
              (log (snd (main_with_env (host := scenario_host happy)
                           "docker-toolbox" (start tt))))),
           (skipn 17
              (log (snd (main_with_env (host := scenario_host happy)
                           "docker-toolbox" (start tt))))).
    split; [vm_compute; reflexivity|]. vm_compute. tauto.
  - vm_compute. intuition discriminate.
Qed.

(** ** More of the script's behaviour *)

Section Projections.

Lemma probes_app (l1 l2 : list event) : probes (l1 ++ l2) = (probes l1 ++ probes l2)%list.
Proof. induction l1 as [|[| | |] l1 IH]; simpl; auto. now rewrite IH. Qed.

Lemma pauses_app (l1 l2 : list event) : pauses (l1 ++ l2) = (pauses l1 ++ pauses l2)%list.
Proof. induction l1 as [|[| | |] l1 IH]; simpl; auto. now rewrite IH. Qed.

Lemma spawned_app (l1 l2 : list event) :
  spawned (l1 ++ l2) = (spawned l1 ++ spawned l2)%list.
Proof. induction l1 as [|[| | |] l1 IH]; simpl; auto. now rewrite IH. Qed.

Lemma commands_spawned (l : list event) : commands l = map fst (spawned l).
Proof. induction l as [|[| | |] l IH]; simpl; auto. now rewrite IH. Qed.

Lemma printed_lines_only (f : string -> string) (ls : list string) :
  probes (map (fun line => Printed (f line)) ls) = []
  /\ pauses (map (fun line => Printed (f line)) ls) = []
  /\ spawned (map (fun line => Printed (f line)) ls) = [].
Proof. induction ls; simpl; auto. Qed.

Lemma probes_ran command cwd out : probes (ran command cwd out) = [].
Proof. unfold ran. rewrite probes_app. simpl. apply printed_lines_only. Qed.

Lemma pauses_ran command cwd out : pauses (ran command cwd out) = [].
Proof. unfold ran. rewrite pauses_app. simpl. apply printed_lines_only. Qed.

Lemma spawned_ran command cwd out : spawned (ran command cwd out) = [(command, cwd)].
Proof.
  unfold ran. rewrite spawned_app. simpl.
  now rewrite (proj2 (proj2 (printed_lines_only
                               (fun line => strip (decode_utf8_replace line))
                               (readlines out)))).
Qed.

Lemma printed_ran command cwd out :
  printed (ran command cwd out)
  = ("Running: " ++ join " " command)
      :: map (fun line => strip (decode_utf8_replace line)) (readlines out).
Proof.
  unfold ran. cbn [app printed]. f_equal.
  induction (readlines out) as [|l ls IH]; simpl; auto. now rewrite IH.
Qed.

Lemma start_banner_quiet docker_env :
  probes (start_banner docker_env) = []
  /\ pauses (start_banner docker_env) = []
  /\ spawned (start_banner docker_env) = [].
Proof.
  unfold start_banner.
  destruct (docker_env =? "docker-desktop")%string;
    [|destruct (docker_env =? "docker-toolbox")%string]; repeat split.
Qed.

Lemma access_instructions_pause docker_env :
  probes (access_instructions docker_env) = []
  /\ pauses (access_instructions docker_env) = [2]
  /\ spawned (access_instructions docker_env) = [].
Proof.
  unfold access_instructions.
  destruct (docker_env =? "docker-toolbox")%string; repeat split.
Qed.

Lemma stopped_events out :
  probes (stopped out) = [] /\ pauses (stopped out) = []
  /\ spawned (stopped out) = [(docker_ps, None); (docker_stop, None)].
Proof.
  unfold stopped. rewrite probes_app, pauses_app, spawned_app.
  rewrite probes_ran, pauses_ran, spawned_ran. repeat split.
Qed.

Lemma last_access_instructions (l : list event) docker_env d :
  last (l ++ access_instructions docker_env) d = Printed stop_hint.
Proof.
  unfold access_instructions, stop_hint. rewrite !app_assoc.
  match goal with
  | |- last (?x ++ [?a; ?b]) _ = _ =>
      change (x ++ [a; b])%list with (x ++ ([a] ++ [b]))%list;
      rewrite (app_assoc x [a] [b]); apply last_last
  end.
Qed.

End Projections.

Create Rewrite HintDb events.
#[global] Hint Rewrite probes_app pauses_app spawned_app
  probes_ran pauses_ran spawned_ran
  (fun e => proj1 (start_banner_quiet e))
  (fun e => proj1 (proj2 (start_banner_quiet e)))
  (fun e => proj2 (proj2 (start_banner_quiet e)))
  (fun e => proj1 (access_instructions_pause e))
  (fun e => proj1 (proj2 (access_instructions_pause e)))
  (fun e => proj2 (proj2 (access_instructions_pause e)))
  (fun o => proj1 (stopped_events o))
  (fun o => proj1 (proj2 (stopped_events o)))
  (fun o => proj2 (proj2 (stopped_events o)))
  : events.

Section Lines.

Lemma readlines_concat (s : string) : String.concat EmptyString (readlines s) = s.
Proof.
  induction s as [|c t IH]; [reflexivity|].
  cbn [readlines].
  destruct (Ascii.eqb c (ascii_of_nat 10)).
  - destruct (readlines t) as [|l ls]; cbn [String.concat] in *.
    + now rewrite <- IH.
    + cbn. now rewrite <- IH.
  - destruct (readlines t) as [|l ls]; cbn [String.concat] in *.
    + now rewrite <- IH.
    + destruct ls; cbn in *; now rewrite <- IH.
Qed.

Lemma readlines_nonempty (s : string) : Forall (fun line => line <> EmptyString) (readlines s).
Proof.
  induction s as [|c t IH]; [constructor|].
  cbn [readlines].
  destruct (Ascii.eqb c (ascii_of_nat 10)).
  - constructor; [discriminate|exact IH].
  - destruct (readlines t) as [|l ls].
    + constructor; [discriminate|constructor].
    + inversion IH; subst. constructor; [discriminate|assumption].
Qed.

End Lines.

Section Functions.
Context {W : Type} {host : Host W}.

(** [check_docker] path by path. *)
Lemma check_docker_eq (s : state W) :
  check_docker s
  = let failed (e : exn) (w : W) (l : list event) :=
      match e with
      | CalledProcessError _ =>
          (Returned false,
           mk w (l ++ [Printed "Error: Docker is not running. Please start Docker Desktop or Docker service."])%list)
      | OSError FileNotFoundError =>
          (Returned false, mk w (l ++ [Printed "Error: Docker is not installed or not in PATH"])%list)
      | _ => (Raised e, mk w l)
      end in
    match spawn docker_version None (world s) with
    | (SpawnFailed e, w1) => failed (OSError e) w1 (log s ++ [Spawned docker_version None])%list
    | (Exited rc1 _, w1) =>
        if rc1 =? 0 then
          match spawn docker_info None w1 with
          | (SpawnFailed e, w2) =>
              failed (OSError e) w2
                (log s ++ [Spawned docker_version None; Spawned docker_info None])%list
          | (Exited rc2 _, w2) =>
              if rc2 =? 0 then
                (Returned true,
                 mk w2 (log s ++ [Spawned docker_version None; Spawned docker_info None])%list)
              else
                failed (CalledProcessError rc2) w2
                  (log s ++ [Spawned docker_version None; Spawned docker_info None])%list
          end
        else failed (CalledProcessError rc1) w1 (log s ++ [Spawned docker_version None])%list
    end.
Proof.
  unfold check_docker, docker_version, docker_info. cbv zeta.
  reduce_script. normalize_script.
  destruct (spawn _ None (world s)) as [[e|rc1 out1] w1];
    [destruct e; reflexivity|].
  destruct (rc1 =? 0); [|reflexivity].
  reduce_script. normalize_script.
  destruct (spawn _ None w1) as [[e|rc2 out2] w2];
    [destruct e; reduce_script; rewrite <- ?app_assoc; reflexivity|].
  destruct (rc2 =? 0); reduce_script; rewrite <- ?app_assoc; reflexivity.
Qed.

(** [detect_windows_docker_environment] path by path. *)
Lemma detect_eq (s : state W) :
  detect_windows_docker_environment s
  = if (platform_system =? "Windows")%string then
      match spawn docker_info None (world s) with
      | (SpawnFailed _, w) =>
          (Returned "docker-desktop", mk w (log s ++ [Spawned docker_info None])%list)
      | (Exited rc out, w) =>
          (Returned
             (match locale_decode out with
              | Some text =>
                  if rc =? 0 then
                    if (info_mentions text "wsl" || info_mentions text "microsoft")%bool
                    then "docker-desktop"
                    else if (info_mentions text "virtualbox"
                             || info_mentions text "docker machine")%bool
                    then "docker-toolbox"
                    else "docker-desktop"
                  else "docker-desktop"
              | None => "docker-desktop"
              end),
           mk w (log s ++ [Spawned docker_info None])%list)
      end
    else (Returned "standard", s).
Proof.
  unfold detect_windows_docker_environment, docker_info, info_mentions.
  destruct (platform_system =? "Windows")%string; cbn [negb]; [|reflexivity].
  reduce_script. normalize_script.
  destruct (spawn _ None (world s)) as [[e|rc out] w]; [reflexivity|].
  reduce_script.
  destruct (locale_decode out) as [text|]; [|reflexivity].
  destruct (rc =? 0); [|reflexivity]. reduce_script.
  destruct (contains "wsl" (lower text) || contains "microsoft" (lower text))%bool;
    [reflexivity|].
  destruct (contains "virtualbox" (lower text)
            || contains "docker machine" (lower text))%bool; reflexivity.
Qed.

End Functions.

(** Closing the leaves of an exploration of [main_with_env]. *)
Ltac events_normal_form :=
  repeat progress (autorewrite with events; cbn [spawned probes pauses app]).

Ltac hide_messages :=
  repeat match goal with
         | |- context [Printed ?m] =>
             tryif is_var m then fail else
             lazymatch m with
             | ("Detected Docker environment: " ++ _)%string => fail
             | stop_hint => fail
             | ("Using environment file: " ++ _)%string => fail
             | "No .env file found. Continuing without environment variables." => fail
             | _ => let x := fresh "m" in set (x := m); clearbody x
             end
         end.

Ltac use_stat :=
  unfold launch_sequence, env_args_at, env_announcement;
  repeat match goal with
         | E : stat env_file ?w = _ |- context [stat env_file ?w] => rewrite E
         end.

Ltac sequence_leaf :=
  split;
  [ eexists; use_stat; events_normal_form; reflexivity
  | let H := fresh in
    intros H;
    first [ discriminate H
          | split; [use_stat; events_normal_form; reflexivity|];
            split; [events_normal_form; reflexivity|];
            split; [rewrite ?app_assoc; apply last_access_instructions|];
            use_stat;
            match goal with
            | E : spawn (run_command_line _ _) None _ = (Exited ?rc _, _),
              Erc : (?rc =? 0) = true |- _ =>
                apply Z.eqb_eq in Erc; subst rc; do 3 eexists; exact E
            end ] ].

Section Traces.
Context {W : Type} {host : Host W}.

(** Every path of [main_with_env] at once: what it starts, probes and
    pauses for, and how that relates to the way it ends. *)
Lemma main_with_env_trace docker_env (s : state W) :
  exists o w' new w1 replaced,
    main_with_env docker_env s = (o, mk w' (log s ++ new))
    /\ (o = Returned 0 \/ o = Returned 1
        \/ (exists e, o = Raised (OSError e)) \/ o = Raised UnicodeDecodeError)
    /\ (begins (spawned new) (launch_sequence docker_env w1 replaced)
        /\ (o = Returned 0 ->
            spawned new = launch_sequence docker_env w1 replaced
            /\ pauses new = [2]
            /\ last new (Slept 0) = Printed stop_hint
            /\ exists w2 out w3,
                 spawn (run_command_line docker_env (env_args_at w1)) None w2
                 = (Exited 0 out, w3)))
    /\ (o <> Returned 0 -> pauses new = [])
    /\ (begins (probes new) [8501; 8100]
        /\ (probes_never_raise -> probes new = [8501; 8100])
        /\ (spawned new <> [] -> probes new = [8501; 8100]))
    /\ (exists post,
           new = Printed ("Detected Docker environment: " ++ docker_env) :: post
           /\ (spawned new <> [] ->
               exists post',
                 post = Probed 8501 :: Probed 8100
                          :: Printed (env_announcement w1) :: post'
                 /\ probes post' = [])).
Proof.
  unfold main_with_env, required_ports, begins. explore_all.
  all: hide_messages.
  all: rewrite <- ?app_assoc; do 3 eexists.
  all: match goal with
       | E : stat env_file ?w = _ |- _ => exists w
       | _ => exists (world s)
       end.
  all: match goal with
       | |- exists _, ?e = _ /\ _ /\ (_ /\ (?o = _ -> _)) /\ _ =>
           first [ exists false; split; [reflexivity|];
                   split; [solve [eauto]|]; split; [sequence_leaf|]
                 | exists true; split; [reflexivity|];
                   split; [solve [eauto]|]; split; [sequence_leaf|] ]
       end.
  all: split;
    [ let H := fresh in
      intros H; events_normal_form;
      first [ reflexivity | exfalso; apply H; reflexivity ] |].
  all: split;
    [ split; [eexists; events_normal_form; reflexivity|];
      split;
      [ let Hpr := fresh in
        intros Hpr; events_normal_form;
        first [ reflexivity
              | exfalso;
                match goal with
                | E : connect_ex ?p ?w = (ConnectRaised ?e, _) |- _ =>
                    apply (Hpr p w e); rewrite E; reflexivity
                end ]
      | let Hne := fresh in
        intros Hne; events_normal_form;
        first [ reflexivity
              | exfalso; apply Hne; events_normal_form; reflexivity ] ] |].
  all: eexists; split; [cbn [app]; reflexivity|];
    let Hne := fresh in
    intros Hne;
    first [ eexists; split;
            [ unfold env_announcement; use_stat; cbn [app]; reflexivity
            | events_normal_form; reflexivity ]
          | exfalso; apply Hne; events_normal_form; reflexivity ].
Qed.
End Traces.

Section MainTrace.
Context {W : Type} {host : Host W}.

(** Every path of the detection: an answer, no line printed, the
    daemon-info query on Windows and nothing elsewhere. *)
Lemma detect_events (s : state W) :
  exists docker_env w',
    detect_windows_docker_environment s
    = (Returned docker_env,
       mk w' (log s ++ (if (platform_system =? "Windows")%string
                        then [Spawned docker_info None] else []))%list)
    /\ detected docker_env
    /\ (platform_system <> "Windows" -> docker_env = "standard" /\ w' = world s).
Proof.
  rewrite detect_eq. unfold detected.
  destruct (platform_system =? "Windows")%string eqn:Hp.
  - apply String.eqb_eq in Hp.
    destruct (spawn docker_info None (world s)) as [[e|rc out] w'].
    + do 2 eexists. split; [reflexivity|]. split; [tauto|congruence].
    + do 2 eexists. split; [reflexivity|]. split; [|congruence].
      destruct (locale_decode out) as [text|]; [|tauto].
      destruct (rc =? 0); [|tauto].
      destruct (info_mentions text "wsl" || info_mentions text "microsoft")%bool; [tauto|].
      destruct (info_mentions text "virtualbox"
                || info_mentions text "docker machine")%bool; tauto.
  - exists "standard", (world s). rewrite app_nil_r. destruct s. repeat split. tauto.
Qed.

Lemma begins_nil {A} (whole : list A) : begins [] whole.
Proof. now exists whole. Qed.

Lemma begins_refl {A} (whole : list A) : begins whole whole.
Proof. exists []. now rewrite app_nil_r. Qed.

(** [main] up to the point where [docker_env] is known: it stops with
    exit code 1 or an [OSError] after one or both queries of the engine
    check, one of which did not exit with status 0; or it goes on as
    [main_with_env] after the queries of [engine_sequence], nothing
    printed yet. *)
Lemma main_cases (w : W) :
  (exists o w' pre,
      main (start w) = (o, mk w' pre)
      /\ (o = Returned 1 \/ exists e, o = Raised (OSError e))
      /\ begins (spawned pre) engine_sequence
      /\ probes pre = [] /\ pauses pre = []
      /\ exists query w0,
           In query [docker_version; docker_info]
           /\ forall out, fst (spawn query None w0) <> Exited 0 out)
  \/ (exists docker_env s1,
         main (start w) = main_with_env docker_env s1
         /\ detected docker_env
         /\ spawned (log s1) = engine_sequence
         /\ printed (log s1) = []
         /\ probes (log s1) = [] /\ pauses (log s1) = []).
Proof.
  assert (Hone : forall tail, begins [(docker_version, @None path)]
                                ((docker_version, None) :: tail)).
  { intros tail. now exists tail. }
  assert (Htwo : begins [(docker_version, @None path); (docker_info, None)]
                   engine_sequence).
  { unfold engine_sequence. eexists. reflexivity. }
  assert (Hrc : forall rc out out', (rc =? 0) = false -> Exited rc out <> Exited 0 out').
  { intros rc out out' Hrc H. injection H as -> _. discriminate Hrc. }
  unfold main, bind. rewrite check_docker_eq. cbv zeta.
  unfold start. cbn [world log app].
  destruct (spawn docker_version None w) as [[e|rc1 out1] w1] eqn:E1.
  { left. destruct e; cbn [negb ret]; do 3 eexists;
      (split; [reflexivity|]); (split; [eauto|]);
      (split; [apply Hone|split; [reflexivity|split; [reflexivity|]]]);
      exists docker_version, w; (split; [cbn; tauto|]);
      intros out; rewrite E1; discriminate. }
  destruct (rc1 =? 0) eqn:Erc1;
    [|left; cbn [negb ret]; do 3 eexists;
      (split; [reflexivity|]); (split; [eauto|]);
      (split; [apply Hone|split; [reflexivity|split; [reflexivity|]]]);
      exists docker_version, w; (split; [cbn; tauto|]);
      intros out; rewrite E1; apply Hrc, Erc1].
  destruct (spawn docker_info None w1) as [[e|rc2 out2] w2] eqn:E2.
  { left. destruct e; cbn [negb ret]; do 3 eexists;
      (split; [reflexivity|]); (split; [eauto|]);
      (split; [apply Htwo|split; [reflexivity|split; [reflexivity|]]]);
      exists docker_info, w1; (split; [cbn; tauto|]);
      intros out; rewrite E2; discriminate. }
  destruct (rc2 =? 0) eqn:Erc2;
    [|left; cbn [negb ret]; do 3 eexists;
      (split; [reflexivity|]); (split; [eauto|]);
      (split; [apply Htwo|split; [reflexivity|split; [reflexivity|]]]);
      exists docker_info, w1; (split; [cbn; tauto|]);
      intros out; rewrite E2; apply Hrc, Erc2].
  right. cbn [negb].
  destruct (detect_events (mk w2 [Spawned docker_version None; Spawned docker_info None]))
    as (docker_env & w3 & Hd & Hdet & _).
  rewrite Hd. cbn [log app].
  do 2 eexists. split; [reflexivity|]. split; [exact Hdet|].
  cbn [log mk]. unfold engine_sequence.
  destruct (platform_system =? "Windows")%string; repeat split.
Qed.

(** Every path of [main] at once. The log falls into the part of the
    engine check and the detection, [pre], and the part of
    [main_with_env], [new]. *)
Lemma main_trace (w : W) :
  exists o w' pre new docker_env w1 replaced,
    main (start w) = (o, mk w' (pre ++ new))
    /\ detected docker_env
    /\ (o = Returned 0 \/ o = Returned 1
        \/ (exists e, o = Raised (OSError e)) \/ o = Raised UnicodeDecodeError)
    /\ (begins (spawned pre) engine_sequence
        /\ probes pre = [] /\ pauses pre = []
        /\ (new <> [] -> spawned pre = engine_sequence /\ printed pre = []))
    /\ (begins (spawned new) (launch_sequence docker_env w1 replaced)
        /\ (o = Returned 0 ->
            spawned new = launch_sequence docker_env w1 replaced
            /\ pauses new = [2]
            /\ last new (Slept 0) = Printed stop_hint
            /\ exists w2 out w3,
                 spawn (run_command_line docker_env (env_args_at w1)) None w2
                 = (Exited 0 out, w3)))
    /\ (o <> Returned 0 -> pauses new = [])
    /\ (begins (probes new) [8501; 8100]
        /\ (probes_never_raise -> new <> [] -> probes new = [8501; 8100])
        /\ (spawned new <> [] -> probes new = [8501; 8100]))
    /\ (spawned new <> [] ->
        exists post,
          new = Printed ("Detected Docker environment: " ++ docker_env)
                  :: Probed 8501 :: Probed 8100
                  :: Printed (env_announcement w1) :: post
          /\ probes post = []).
Proof.
  destruct (main_cases w)
    as [(o & w' & pre & Hmain & Ho & Hb & Hpr & Hpa & _)
       | (docker_env & s1 & Hmain & Hdet & Hsp & Hprinted & Hpr & Hpa)].
  - exists o, w', pre, [], "standard", w, false.
    rewrite app_nil_r. split; [exact Hmain|].
    split; [left; reflexivity|].
    split; [tauto|].
    split; [split; [exact Hb|split; [exact Hpr|split; [exact Hpa|]]];
            intros Hne; now contradiction Hne|].
    split; [split; [apply begins_nil|]|].
    { intros ->. destruct Ho as [Ho|[e Ho]]; discriminate Ho. }
    split; [reflexivity|].
    split; [split; [apply begins_nil|split]|].
    + intros _ Hne; now contradiction Hne.
    + intros Hne; now contradiction Hne.
    + intros Hne; now contradiction Hne.
  - destruct (main_with_env_trace docker_env s1)
      as (o & w' & new & w4 & replaced & Hm & Ho & Hs & Hp & (Hb & Hnr & Hspn)
          & post & Hnew & Hpost).
    exists o, w', (log s1), new, docker_env, w4, replaced.
    split; [now rewrite Hmain|]. split; [exact Hdet|]. split; [exact Ho|].
    split; [rewrite Hsp; split; [apply begins_refl|]; auto|].
    split; [exact Hs|]. split; [exact Hp|].
    split; [split; [exact Hb|split; [intros H _; exact (Hnr H)|exact Hspn]]|].
    intros Hne. destruct (Hpost Hne) as (post' & -> & Hpp).
    exists post'. split; [exact Hnew|exact Hpp].
Qed.

End MainTrace.

Section FunctionProperties.
Context {W : Type} {host : Host W}.

(** X1. [run_command] starts exactly one process, the command in the
    directory it is given, after printing the echo of the command line.
    When the process runs, its exit status is returned whatever it is (a
    non-zero status is returned, not raised), and the output is printed
    after the echo line by line: the lines are the bytes of the output
    cut after every line feed (put together they give the output back
    and none is empty), and each is printed decoded as UTF-8, ill-formed
    bytes replaced by U+FFFD, and then stripped of the white space at
    both ends. When the process cannot be started, the [OSError] is
    raised with only the echo printed. Nothing is probed and there is no
    pause. *)
Theorem run_command_relays_status_and_output command cwd (s : state W) :
  exists new,
    snd (run_command command cwd s)
    = mk (snd (spawn command cwd (world s))) (log s ++ new)
    /\ spawned new = [(command, cwd)]
    /\ probes new = [] /\ pauses new = []
    /\ match fst (spawn command cwd (world s)) with
       | Exited rc out =>
           fst (run_command command cwd s) = Returned rc
           /\ printed new
              = ("Running: " ++ join " " command)
                  :: map (fun line => strip (decode_utf8_replace line)) (readlines out)
           /\ String.concat EmptyString (readlines out) = out
           /\ Forall (fun line => line <> EmptyString) (readlines out)
       | SpawnFailed e =>
           fst (run_command command cwd s) = Raised (OSError e)
           /\ printed new = ["Running: " ++ join " " command]
       end.
Proof.
  rewrite run_command_eq.
  destruct (spawn command cwd (world s)) as [[e|rc out] w]; cbn [fst snd].
  - eexists. split; [reflexivity|]. repeat split.
  - exists (ran command cwd out). split; [reflexivity|].
    rewrite spawned_ran, probes_ran, pauses_ran, printed_ran.
    repeat split; [apply readlines_concat|apply readlines_nonempty].
Qed.

(** X2. The engine check answers [True] exactly when the version query
    exits with status 0 and the daemon-info query, started in the world
    the first one left, exits with status 0 too; it has then started
    these two processes and printed nothing. *)
Theorem engine_check_passes_iff (s : state W) :
  (fst (check_docker s) = Returned true
   <-> exists out1 w1 out2 w2,
         spawn docker_version None (world s) = (Exited 0 out1, w1)
         /\ spawn docker_info None w1 = (Exited 0 out2, w2))
  /\ (fst (check_docker s) = Returned true ->
      log (snd (check_docker s))
      = (log s ++ [Spawned docker_version None; Spawned docker_info None])%list).
Proof.
  rewrite check_docker_eq. cbv zeta.
  destruct (spawn docker_version None (world s)) as [[e|rc1 out1] w1].
  { split; [split|]; [destruct e; discriminate
                     |intros (? & ? & ? & ? & H & _); discriminate H
                     |destruct e; discriminate]. }
  destruct (rc1 =? 0) eqn:E1.
  2:{ split; [split|]; [discriminate| |discriminate].
      intros (? & ? & ? & ? & H & _). injection H as -> _ _. discriminate E1. }
  apply Z.eqb_eq in E1; subst rc1.
  destruct (spawn docker_info None w1) as [[e|rc2 out2] w2] eqn:E2.
  { split; [split|]; [destruct e; discriminate| |destruct e; discriminate].
    intros (? & ? & ? & ? & H & H2). injection H as _ <-. rewrite E2 in H2.
    discriminate H2. }
  destruct (rc2 =? 0) eqn:Erc2.
  2:{ split; [split|]; [discriminate| |discriminate].
      intros (? & ? & ? & ? & H & H2). injection H as _ <-. rewrite E2 in H2.
      injection H2 as -> _ _. discriminate Erc2. }
  apply Z.eqb_eq in Erc2; subst rc2.
  split; [split|]; [|reflexivity|reflexivity].
  intros _. exists out1, w1, out2, w2. split; [reflexivity|exact E2].
Qed.

(** X3. What the engine check reports, and why. In every state it
    starts the version query, alone or followed by the daemon-info query,
    and the daemon-info query is started only after the version query
    exited with status 0. It never raises [CalledProcessError] nor
    [UnicodeDecodeError] (it reads the output as bytes). When it
    answers [False] it has printed exactly one line: "not installed"
    when the last query it started could not be started for want of the
    binary, "not running" when that query exited with a non-zero status
    (the version query included). Any other failure to start a query
    leaves the check as that [OSError], with nothing printed. *)
Theorem engine_check_diagnosis (s : state W) :
  exists new started query w0,
    log (snd (check_docker s)) = (log s ++ new)%list
    /\ spawned new = (started ++ [(query, None)])%list
    /\ (started = [] /\ query = docker_version /\ w0 = world s
        \/ started = [(docker_version, None)] /\ query = docker_info
           /\ exists out, spawn docker_version None (world s) = (Exited 0 out, w0))
    /\ match fst (check_docker s) with
       | Returned true =>
           printed new = [] /\ exists out, fst (spawn query None w0) = Exited 0 out
       | Returned false =>
           printed new = ["Error: Docker is not installed or not in PATH"]
           /\ fst (spawn query None w0) = SpawnFailed FileNotFoundError
           \/ printed new
              = ["Error: Docker is not running. Please start Docker Desktop or Docker service."]
              /\ exists rc out, fst (spawn query None w0) = Exited rc out /\ rc <> 0
       | Raised (OSError e) =>
           printed new = [] /\ e <> FileNotFoundError
           /\ fst (spawn query None w0) = SpawnFailed e
       | Raised (CalledProcessError _) => False
       | Raised UnicodeDecodeError => False
       end.
Proof.
  rewrite check_docker_eq. cbv zeta.
  destruct (spawn docker_version None (world s)) as [[e|rc1 out1] w1] eqn:E1.
  { exists ((if match e with FileNotFoundError => true | _ => false end
             then [Spawned docker_version None;
                   Printed "Error: Docker is not installed or not in PATH"]
             else [Spawned docker_version None])), [], docker_version, (world s).
    rewrite E1.
    destruct e; cbn [fst snd log mk]; rewrite <- ?app_assoc;
      (split; [reflexivity|]); (split; [reflexivity|]); (split; [tauto|]);
      first [ left; split; reflexivity
            | split; [reflexivity|split; [discriminate|reflexivity]] ]. }
  destruct (rc1 =? 0) eqn:Erc1.
  2:{ apply Z.eqb_neq in Erc1.
      eexists. exists [], docker_version, (world s). rewrite E1.
      cbn [fst snd log mk]. rewrite <- ?app_assoc.
      split; [reflexivity|]. split; [reflexivity|]. split; [tauto|].
      right. split; [reflexivity|]. eauto. }
  apply Z.eqb_eq in Erc1; subst rc1.
  destruct (spawn docker_info None w1) as [[e|rc2 out2] w2] eqn:E2.
  { exists ((if match e with FileNotFoundError => true | _ => false end
             then [Spawned docker_version None; Spawned docker_info None;
                   Printed "Error: Docker is not installed or not in PATH"]
             else [Spawned docker_version None; Spawned docker_info None])),
      [(docker_version, None)], docker_info, w1.
    rewrite E2.
    destruct e; cbn [fst snd log mk]; rewrite <- ?app_assoc;
      (split; [reflexivity|]); (split; [reflexivity|]);
      (split; [right; eauto|]);
      first [ left; split; reflexivity
            | split; [reflexivity|split; [discriminate|reflexivity]] ]. }
  destruct (rc2 =? 0) eqn:Erc2.
  - apply Z.eqb_eq in Erc2; subst rc2.
    eexists. exists [(docker_version, None)], docker_info, w1. rewrite E2.
    cbn [fst snd log mk].
    split; [reflexivity|]. split; [reflexivity|]. split; [right; eauto|].
    split; [reflexivity|]. eauto.
  - apply Z.eqb_neq in Erc2.
    eexists. exists [(docker_version, None)], docker_info, w1. rewrite E2.
    cbn [fst snd log mk]. rewrite <- ?app_assoc.
    split; [reflexivity|]. split; [reflexivity|]. split; [right; eauto|].
    right. split; [reflexivity|]. eauto.
Qed.

(** X4. The environment detection never fails and is silent: in every
    state, whatever the daemon-info query does (an [OSError] at its start
    and a non-zero exit status included), it returns one of "standard",
    "docker-desktop" and "docker-toolbox", prints nothing, and starts
    exactly one process on Windows, the daemon-info query; on any other
    platform it starts none and leaves the world as it was. *)
Theorem detection_never_fails (s : state W) :
  exists docker_env new,
    fst (detect_windows_docker_environment s) = Returned docker_env
    /\ detected docker_env
    /\ log (snd (detect_windows_docker_environment s)) = (log s ++ new)%list
    /\ printed new = [] /\ probes new = [] /\ pauses new = []
    /\ spawned new
       = (if (platform_system =? "Windows")%string then [(docker_info, None)] else [])
    /\ (platform_system <> "Windows" ->
        docker_env = "standard"
        /\ world (snd (detect_windows_docker_environment s)) = world s).
Proof.
  destruct (detect_events s) as (docker_env & w' & Hd & Hdet & Hstd).
  rewrite Hd. exists docker_env. eexists.
  split; [reflexivity|]. split; [exact Hdet|]. split; [reflexivity|].
  destruct (platform_system =? "Windows")%string; repeat split;
    apply Hstd; assumption.
Qed.

End FunctionProperties.

Section WholeRun.
Context {W : Type} {host : Host W}.

Lemma last_app_nonempty {A} (l1 l2 : list A) d :
  l2 <> [] -> last (l1 ++ l2) d = last l2 d.
Proof.
  intros Hne. induction l1 as [|a l1 IH]; [reflexivity|].
  cbn [app]. destruct (l1 ++ l2)%list eqn:E.
  - apply app_eq_nil in E. destruct E as [_ E]. contradiction.
  - cbn [last] in *. exact IH.
Qed.

Lemma begins_In {A} (first whole : list A) x :
  begins first whole -> In x first -> In x whole.
Proof. intros [rest ->] H. apply in_or_app. now left. Qed.

Lemma begins_app {A} (l first whole : list A) :
  begins first whole -> begins (l ++ first) (l ++ whole).
Proof. intros [rest ->]. exists rest. now rewrite app_assoc. Qed.

Lemma begins_weaken {A} (first whole more : list A) :
  begins first whole -> begins first (whole ++ more).
Proof. intros [rest ->]. exists (rest ++ more)%list. now rewrite app_assoc. Qed.

(** X7. The processes [main] starts, each with its working directory,
    are an initial part of one fixed sequence: the version query, the
    daemon-info query, on Windows the daemon-info query of the
    detection, the build of the MCP image in [mcp] beside the script,
    the build of the main image in the directory of the script, the
    container list, the stop and the remove of a running container if
    there is one, the run command. Nothing is started out of this order,
    twice, or in another directory. *)
Theorem processes_follow_fixed_order (w : W) :
  exists docker_env w1 replaced,
    detected docker_env
    /\ begins (spawned (log (snd (main (start w)))))
         (engine_sequence ++ launch_sequence docker_env w1 replaced).
Proof.
  destruct (main_trace w)
    as (o & w' & pre & new & e & w1 & replaced & Hmain & Hdet & _
        & (Hpre & _ & _ & Hfull) & (Hnew & _) & _).
  exists e, w1, replaced. split; [exact Hdet|].
  rewrite Hmain. cbn [snd log mk]. rewrite spawned_app.
  destruct new as [|ev new'].
  - cbn [spawned]. rewrite app_nil_r. now apply begins_weaken.
  - destruct Hfull as [-> _]; [discriminate|]. now apply begins_app.
Qed.

(** X8. When [main] returns 0, every step has been carried out: both
    ports were probed, the whole sequence of processes was started up to
    the run command, the run command exited with status 0, [main] paused
    once, for two seconds, and the last thing it did was to print how to
    stop the container. *)
Theorem exit_code_zero_means_container_started (w : W) :
  fst (main (start w)) = Returned 0 ->
  exists docker_env w1 replaced,
    detected docker_env
    /\ spawned (log (snd (main (start w))))
       = (engine_sequence ++ launch_sequence docker_env w1 replaced)%list
    /\ probes (log (snd (main (start w)))) = [8501; 8100]
    /\ pauses (log (snd (main (start w)))) = [2]
    /\ last (log (snd (main (start w)))) (Slept 0) = Printed stop_hint
    /\ exists w2 out w3,
         spawn (run_command_line docker_env (env_args_at w1)) None w2
         = (Exited 0 out, w3).
Proof.
  destruct (main_trace w)
    as (o & w' & pre & new & e & w1 & replaced & Hmain & Hdet & _
        & (_ & Hpr & Hpa & Hfull) & (_ & Hok) & _ & (_ & _ & Hprobes) & _).
  rewrite Hmain. cbn [fst snd log mk]. intros ->.
  destruct (Hok eq_refl) as (Hsp & Hpause & Hlast & Hrun).
  assert (Hne : spawned new <> []).
  { rewrite Hsp. unfold launch_sequence. discriminate. }
  assert (Hnew : new <> []).
  { intros ->. now apply Hne. }
  destruct (Hfull Hnew) as [Hengine _].
  exists e, w1, replaced.
  rewrite spawned_app, probes_app, pauses_app, Hengine, Hsp, Hpr, Hpa,
    (Hprobes Hne), Hpause, (last_app_nonempty pre new _ Hnew).
  repeat split; auto.
Qed.

(** X9. [main] pauses only once the container runs: along every path,
    either it returns 0 and has paused once, for two seconds, or it ends
    in another way and has not paused at all. *)
Theorem pause_only_after_successful_start (w : W) :
  fst (main (start w)) = Returned 0
  /\ pauses (log (snd (main (start w)))) = [2]
  \/ fst (main (start w)) <> Returned 0
     /\ pauses (log (snd (main (start w)))) = [].
Proof.
  destruct (main_trace w)
    as (o & w' & pre & new & e & w1 & replaced & Hmain & _ & Ho
        & (_ & _ & Hpa & _) & (_ & Hok) & Hfail & _).
  rewrite Hmain. cbn [fst snd log mk]. rewrite pauses_app, Hpa. cbn [app].
  destruct Ho as [-> | Ho].
  - left. split; [reflexivity|]. now destruct (Hok eq_refl) as (_ & -> & _).
  - right.
    assert (Hne : o <> Returned 0).
    { destruct Ho as [-> | [[e' ->] | ->]]; discriminate. }
    split; [exact Hne|exact (Hfail Hne)].
Qed.

(** X10. No process other than the queries of the engine check and of
    the detection is started before both required ports have been
    probed, 8501 first: wherever such a process is started in the log of
    [main], the probes before it are those of 8501 and 8100, and no port
    is probed after it. *)
Theorem ports_are_probed_before_any_launch (w : W) before command cwd after :
  log (snd (main (start w))) = (before ++ Spawned command cwd :: after)%list ->
  command <> docker_version -> command <> docker_info ->
  probes before = [8501; 8100] /\ probes after = [].
Proof.
  destruct (main_trace w)
    as (o & w' & pre & new & e & w1 & replaced & Hmain & _ & _
        & (Hpre & Hpr & _ & _) & _ & _ & _ & Hshape).
  rewrite Hmain. cbn [snd log mk]. intros Hlog Hv Hi.
  apply app_eq_app in Hlog. destruct Hlog as (mid & [[-> Hmid] | [-> Hmid]]).
  - destruct mid as [|ev mid].
    + cbn [app] in Hmid. rewrite app_nil_r in *.
      assert (Hne : spawned new <> []) by (rewrite <- Hmid; discriminate).
      destruct (Hshape Hne) as (post & Hnew & _).
      rewrite Hnew in Hmid. discriminate Hmid.
    + cbn [app] in Hmid. injection Hmid as <- ->.
      exfalso.
      assert (Hin : In (command, cwd) engine_sequence).
      { apply (begins_In _ _ _ Hpre). rewrite spawned_app. apply in_or_app.
        right. cbn [spawned]. now left. }
      unfold engine_sequence in Hin. cbn [In] in Hin.
      destruct Hin as [Hin | [Hin | Hin]];
        [injection Hin as <- _; now apply Hv
        |injection Hin as <- _; now apply Hi|].
      destruct (platform_system =? "Windows")%string; cbn [In] in Hin;
        [destruct Hin as [Hin|[]]; injection Hin as <- _; now apply Hi
        |contradiction].
  - assert (Hne : spawned new <> []).
    { rewrite Hmid, spawned_app. cbn [spawned].
      intros H. apply app_eq_nil in H. destruct H as [_ H]. discriminate H. }
    destruct (Hshape Hne) as (post & Hnew & Hpost).
    rewrite Hnew in Hmid.
    destruct mid as [|e1 [|e2 [|e3 [|e4 mid]]]]; cbn [app] in Hmid;
      try discriminate Hmid.
    injection Hmid as <- <- <- <- ->.
    rewrite probes_app in Hpost. apply app_eq_nil in Hpost.
    destruct Hpost as [Hmidp Hafter]. cbn [probes] in Hafter.
    rewrite probes_app, Hpr. cbn [probes app]. rewrite Hmidp.
    split; [reflexivity|exact Hafter].
Qed.

(** X11. What [main] announces about [.env] is what the run command
    gets: every run command [main] starts is the command line of the
    detected environment with the environment-file arguments of some
    state of the file system, the two ports were probed before it, and
    the line [main] printed about [.env] is the one for that very state
    ("Using environment file" with the path when the arguments carry the
    file, "No .env file found" when they do not). *)
Theorem env_file_announcement_matches_run_command (w : W) line :
  In line (filter is_run (commands (log (snd (main (start w)))))) ->
  exists docker_env w1,
    detected docker_env
    /\ line = run_command_line docker_env (env_args_at w1)
    /\ In (env_announcement w1) (printed (log (snd (main (start w)))))
    /\ In ("Detected Docker environment: " ++ docker_env)
         (printed (log (snd (main (start w))))).
Proof.
  destruct (main_trace w)
    as (o & w' & pre & new & e & w1 & replaced & Hmain & Hdet & _
        & (Hpre & _ & _ & _) & (Hnew & _) & _ & _ & Hshape).
  rewrite Hmain. cbn [snd log mk].
  rewrite commands_spawned, spawned_app, map_app, filter_app.
  intros Hin. apply in_app_or in Hin.
  assert (Hengine : forall c, In c (filter is_run (map fst (spawned pre))) -> False).
  { intros c Hc. apply filter_In in Hc. destruct Hc as [Hc Hrun].
    apply in_map_iff in Hc. destruct Hc as ([c' cwd] & <- & Hc).
    apply (begins_In _ _ _ Hpre) in Hc. unfold engine_sequence in Hc.
    cbn [In] in Hc.
    destruct Hc as [Hc | [Hc | Hc]];
      [injection Hc as <- _; discriminate Hrun
      |injection Hc as <- _; discriminate Hrun|].
    destruct (platform_system =? "Windows")%string; cbn [In] in Hc;
      [destruct Hc as [Hc|[]]; injection Hc as <- _; discriminate Hrun
      |contradiction]. }
  destruct Hin as [Hin | Hin]; [destruct (Hengine _ Hin)|].
  apply filter_In in Hin. destruct Hin as [Hin Hrun].
  apply in_map_iff in Hin. destruct Hin as ([c cwd] & <- & Hc). cbn [fst] in *.
  assert (Hne : spawned new <> []) by (intros H; rewrite H in Hc; exact Hc).
  apply (begins_In _ _ _ Hnew) in Hc.
  destruct (Hshape Hne) as (post & -> & _).
  exists e, w1. split; [exact Hdet|].
  rewrite printed_app. cbn [printed].
  split; [|split; apply in_or_app; right; cbn [In]; tauto].
  unfold launch_sequence in Hc. cbn [app In] in Hc.
  destruct Hc as [Hc | [Hc | [Hc | Hc]]];
    try (injection Hc as <- _; discriminate Hrun).
  destruct replaced; cbn [app In] in Hc.
  - destruct Hc as [Hc | [Hc | [Hc | []]]];
      try (injection Hc as <- _; discriminate Hrun).
    now injection Hc as <- _.
  - destruct Hc as [Hc | []]. now injection Hc as <- _.
Qed.

End WholeRun.

(** One answer of the host to a build, taken from an assumption on that
    very command line. *)
Ltac command_step H :=
  match goal with
  | |- context [spawn ?c ?d ?w] =>
      let F := fresh "F" in
      pose proof (H d w) as F;
      unfold build_mcp, build_archon in F;
      let r := fresh "r" in
      let w' := fresh "w" in
      destruct (spawn c d w) as [r w']; digest F
  end.

Section Steps.
Context {W : Type} {host : Host W}.

(** With the engine available [main] goes on as [main_with_env]. *)
Lemma main_goes_on (w : W) :
  engine_available ->
  exists docker_env s1,
    main (start w) = main_with_env docker_env s1
    /\ detected docker_env
    /\ spawned (log s1) = engine_sequence
    /\ printed (log s1) = []
    /\ probes (log s1) = [] /\ pauses (log s1) = [].
Proof.
  intros [Hv Hi].
  destruct (main_cases w) as [(o & w' & pre & _ & _ & _ & _ & _ & q & w0 & Hq & Hfail)|H];
    [exfalso|exact H].
  cbn [In] in Hq. destruct Hq as [<- | [<- | []]].
  - destruct (Hv docker_version None w0 eq_refl) as [out Hout]. exact (Hfail out Hout).
  - destruct (Hi docker_info None w0 eq_refl) as [out Hout]. exact (Hfail out Hout).
Qed.

(** X12. The port check does not stop at the first occupied port: with
    the engine available and probes that answer, [main] probes 8501 and
    then 8100 whatever the first answer was. *)
Theorem both_ports_are_probed (w : W) :
  engine_available -> probes_never_raise ->
  probes (log (snd (main (start w)))) = [8501; 8100].
Proof.
  intros He Hp.
  destruct (main_goes_on w He) as (e & s1 & Hmain & _ & _ & _ & Hpr & _).
  destruct (main_with_env_trace e s1)
    as (o & w' & new & w1 & replaced & Hm & _ & _ & _ & (_ & Hall & _) & _).
  rewrite Hmain, Hm. cbn [snd log mk]. rewrite probes_app, Hpr. exact (Hall Hp).
Qed.

(** X13. An exception of a port probe is not caught. With the engine
    available, when the probe of a required port raises an [OSError]
    (and, if that port is 8100, the probe of 8501 answers), [main] ends
    with that [OSError]: it has probed the ports up to the failing one,
    has printed the detected environment and nothing else, and has
    started no process beyond the engine queries. *)
Theorem probe_error_escapes (w : W) port e :
  engine_available ->
  In port required_ports ->
  (forall w0, fst (connect_ex port w0) = ConnectRaised e) ->
  (port = 8100 -> forall w0, exists n, fst (connect_ex 8501 w0) = ConnectErrno n) ->
  exists docker_env,
    fst (main (start w)) = Raised (OSError e)
    /\ probes (log (snd (main (start w))))
       = (if port =? 8501 then [8501] else [8501; 8100])
    /\ spawned (log (snd (main (start w)))) = engine_sequence
    /\ printed (log (snd (main (start w))))
       = ["Detected Docker environment: " ++ docker_env].
Proof.
  intros He Hin Hraise Hother.
  destruct (main_goes_on w He) as (d & s1 & Hmain & _ & Hsp & Hpd & Hpr & _).
  exists d. rewrite Hmain. clear Hmain He.
  unfold main_with_env, required_ports in *. reduce_script. normalize_script.
  cbn [In] in Hin. destruct Hin as [<- | [<- | []]].
  - pose proof (Hraise (world s1)) as F.
    destruct (connect_ex 8501 (world s1)) as [r w1]. cbn [fst] in F. subst r.
    cbn [fst snd log mk]. change (8501 =? 8501) with true. cbv iota.
    rewrite <- !app_assoc, probes_app, spawned_app, printed_app, Hsp, Hpd, Hpr.
    cbn. rewrite app_nil_r. auto.
  - destruct (Hother eq_refl (world s1)) as [n F].
    destruct (connect_ex 8501 (world s1)) as [r w1]. cbn [fst] in F. subst r.
    reduce_script. normalize_script.
    pose proof (Hraise w1) as F.
    destruct (connect_ex 8100 w1) as [r w2]. cbn [fst] in F. subst r.
    cbn [fst snd log mk]. change (8100 =? 8501) with false. cbv iota.
    rewrite <- !app_assoc, probes_app, spawned_app, printed_app, Hsp, Hpd, Hpr.
    cbn. rewrite app_nil_r. auto.
Qed.

(** X14. When the build of the MCP image exits with a non-zero status
    (engine available, ports free), [main] prints "Error building MCP
    container" as its last line and returns 1, without a pause: the
    build was started in the directory [mcp] beside the script, and
    nothing is started after it, neither the second build nor the
    container list nor a stop, remove or run command. *)
Theorem mcp_build_failure_aborts (w : W) :
  engine_available -> ports_free ->
  command_answers build_mcp exits_nonzero ->
  fst (main (start w)) = Returned 1
  /\ spawned (log (snd (main (start w))))
     = (engine_sequence ++ [(build_mcp, Some mcp_dir)])%list
  /\ last (log (snd (main (start w)))) (Slept 0)
     = Printed "Error building MCP container"
  /\ pauses (log (snd (main (start w)))) = [].
Proof.
  intros He Hp Hb.
  destruct (main_goes_on w He) as (d & s1 & Hmain & _ & Hsp & _ & _ & Hpa).
  rewrite Hmain. clear Hmain He. expose_assumptions.
  unfold main_with_env, required_ports.
  reduce_script. normalize_script. connect_step. reduce_script.
  normalize_script. connect_step. reduce_script.
  repeat branch_step. reduce_script.
  stat_step; reduce_script; normalize_script; command_step Hb; reduce_script;
    repeat branch_step; reduce_script; cbn [fst snd log mk];
    rewrite <- ?app_assoc;
    (split; [reflexivity|]);
    rewrite spawned_app, pauses_app, Hsp, Hpa;
    (split; [events_normal_form; reflexivity|]);
    (split; [|events_normal_form; reflexivity]);
    rewrite !app_assoc; apply last_last.
Qed.

(** X15. When the MCP image builds and the build of the main image
    exits with a non-zero status (engine available, ports free), [main]
    prints "Error building main Archon container" as its last line and
    returns 1, without a pause. The second build was started in the
    directory of the script; the container list is not queried, so a
    container that is running is neither stopped nor removed, and no run
    command is started. *)
Theorem archon_build_failure_aborts (w : W) :
  engine_available -> ports_free ->
  command_answers build_mcp exits_zero ->
  command_answers build_archon exits_nonzero ->
  fst (main (start w)) = Returned 1
  /\ spawned (log (snd (main (start w))))
     = (engine_sequence
          ++ [(build_mcp, Some mcp_dir); (build_archon, Some base_dir)])%list
  /\ last (log (snd (main (start w)))) (Slept 0)
     = Printed "Error building main Archon container"
  /\ pauses (log (snd (main (start w)))) = [].
Proof.
  intros He Hp Hb1 Hb2.
  destruct (main_goes_on w He) as (d & s1 & Hmain & _ & Hsp & _ & _ & Hpa).
  rewrite Hmain. clear Hmain He. expose_assumptions.
  unfold main_with_env, required_ports.
  reduce_script. normalize_script. connect_step. reduce_script.
  normalize_script. connect_step. reduce_script.
  repeat branch_step. reduce_script.
  stat_step; reduce_script; normalize_script; command_step Hb1; reduce_script;
    normalize_script; command_step Hb2; reduce_script;
    repeat branch_step; reduce_script; cbn [fst snd log mk];
    rewrite <- ?app_assoc;
    (split; [reflexivity|]);
    rewrite spawned_app, pauses_app, Hsp, Hpa;
    (split; [events_normal_form; reflexivity|]);
    (split; [|events_normal_form; reflexivity]);
    rewrite !app_assoc; apply last_last.
Qed.

End Steps.

Section MoreSteps.
Context {W : Type} {host : Host W}.

(** X16. A refused run command comes after the replacement, and nothing
    is started after it. With the engine available, the ports free and
    the builds succeeding, when a container is listed as running and the
    run command then exits with a non-zero status, [main] returns 1 with
    "Error starting Archon container" as its last line and without a
    pause; by then the stop command and the remove command for the
    running container have been started, in the fixed order, and the run
    command is the last process [main] starts. *)
Theorem refused_run_leaves_no_container (w : W) :
  engine_available -> ports_free -> builds_succeed ->
  answers "ps" container_listed ->
  answers "stop" starts -> answers "rm" starts ->
  answers "run" exits_nonzero ->
  exists docker_env w1,
    fst (main (start w)) = Returned 1
    /\ spawned (log (snd (main (start w))))
       = (engine_sequence ++ launch_sequence docker_env w1 true)%list
    /\ last (log (snd (main (start w)))) (Slept 0)
       = Printed "Error starting Archon container"
    /\ pauses (log (snd (main (start w)))) = [].
Proof.
  intros He Hp Hb Hps Hstop Hrm Hrun.
  destruct (main_goes_on w He) as (d & s1 & Hmain & _ & Hsp & _ & _ & Hpa).
  rewrite Hmain. clear Hmain He. expose_assumptions. exists d.
  unfold main_with_env, required_ports. explore_all.
  all: match goal with
       | E : stat env_file ?w = _ |- _ => exists w
       end.
  all: hide_messages; cbn [fst snd log mk]; rewrite <- ?app_assoc;
    (split; [reflexivity|]);
    rewrite spawned_app, pauses_app, Hsp, Hpa;
    (split; [use_stat; events_normal_form; reflexivity|]);
    (split; [|events_normal_form; reflexivity]);
    rewrite !app_assoc;
    match goal with
    | |- last (_ ++ [Printed ?m]) _ = _ => rewrite last_last
    end.
  all: reflexivity.
Qed.

(** X17. A [docker] binary that is there but cannot be executed is not
    reported as missing. When the start of the version query fails with
    an [OSError] other than [FileNotFoundError], [main] ends with that
    [OSError]: it has printed nothing and has started nothing else. *)
Theorem unexecutable_engine_raises (w : W) e :
  fst (spawn docker_version None w) = SpawnFailed e ->
  e <> FileNotFoundError ->
  fst (main (start w)) = Raised (OSError e)
  /\ log (snd (main (start w))) = [Spawned docker_version None].
Proof.
  intros Hv He. unfold main, bind. rewrite check_docker_eq. cbv zeta.
  unfold start. cbn [world log app].
  destruct (spawn docker_version None w) as [r w1]. cbn [fst] in Hv. subst r.
  destruct e; [contradiction| | |]; split; reflexivity.
Qed.


(** X19. The run step whatever the environment and the environment-file
    arguments: it starts one process and no other, a [docker run -d]
    command without a working directory that publishes every port the
    port check probes (each on the same host port), names the container
    with the name the replace step stops and removes, and has as its
    last word the image that the second build tags. *)
Theorem run_command_publishes_required_ports docker_env env_args (s : state W) :
  exists line new,
    log (snd (start_container docker_env env_args s)) = (log s ++ new)%list
    /\ spawned new = [(line, None)]
    /\ firstn 3 line = ["docker"; "run"; "-d"]
    /\ (forall port, In port required_ports ->
          has_option "-p" (str_int port ++ ":" ++ str_int port) line = true)
    /\ has_option "--name" (nth 2 docker_stop EmptyString) line = true
    /\ nth 2 docker_rm EmptyString = nth 2 docker_stop EmptyString
    /\ last line EmptyString = nth 3 build_archon EmptyString.
Proof.
  exists (run_command_line docker_env env_args).
  rewrite start_container_eq. cbv zeta.
  assert (Hline :
            firstn 3 (run_command_line docker_env env_args) = ["docker"; "run"; "-d"]
            /\ (forall port, In port required_ports ->
                  has_option "-p" (str_int port ++ ":" ++ str_int port)
                    (run_command_line docker_env env_args) = true)
            /\ has_option "--name" (nth 2 docker_stop EmptyString)
                 (run_command_line docker_env env_args) = true
            /\ nth 2 docker_rm EmptyString = nth 2 docker_stop EmptyString
            /\ last (run_command_line docker_env env_args) EmptyString
               = nth 3 build_archon EmptyString).
  { split; [reflexivity|]. split; [|split; [reflexivity|split; [reflexivity|]]].
    - intros port [<- | [<- | []]]; reflexivity.
    - unfold run_command_line. rewrite !app_assoc. apply last_last. }
  destruct (spawn (run_command_line docker_env env_args) None (world s))
    as [[e|rc out] w]; [|destruct (rc =? 0)];
    eexists; (split; [reflexivity|]); events_normal_form;
    (split; [reflexivity|exact Hline]).
Qed.

End MoreSteps.

(** ** The further properties on concrete hosts *)

(** X8 on the host [happy]. *)
Lemma exit_code_zero_means_container_started_witness :
  exists docker_env w1 replaced,
    detected docker_env
    /\ spawned (log (snd (main (host := scenario_host happy) (start tt))))
       = (engine_sequence (host := scenario_host happy)
            ++ launch_sequence (host := scenario_host happy) docker_env w1 replaced)%list
    /\ probes (log (snd (main (host := scenario_host happy) (start tt)))) = [8501; 8100]
    /\ pauses (log (snd (main (host := scenario_host happy) (start tt)))) = [2]
    /\ last (log (snd (main (host := scenario_host happy) (start tt)))) (Slept 0)
       = Printed stop_hint
    /\ exists w2 out w3,
         spawn (Host := scenario_host happy)
           (run_command_line docker_env (env_args_at (host := scenario_host happy) w1))
           None w2
         = (Exited 0 out, w3).
Proof.
  apply (exit_code_zero_means_container_started (host := scenario_host happy) tt).
  vm_compute. reflexivity.
Defined.

(** X10 on the host [happy], for the first build: it is the ninth entry
    of the log. *)
Lemma ports_are_probed_before_any_launch_witness :
  probes (firstn 8 (log (snd (main (host := scenario_host happy) (start tt)))))
  = [8501; 8100]
  /\ probes (skipn 9 (log (snd (main (host := scenario_host happy) (start tt))))) = [].
Proof.
  apply (ports_are_probed_before_any_launch (host := scenario_host happy) tt
           _ build_mcp (Some (mcp_dir (host := scenario_host happy))) _).
  - vm_compute. reflexivity.
  - discriminate.
  - discriminate.
Defined.

(** X11 with a regular [.env] file. *)
Lemma env_file_announcement_matches_run_command_witness :
  exists docker_env w1,
    detected docker_env
    /\ ["docker"; "run"; "-d"; "--name"; "archon-container";
        "-p"; "8501:8501"; "-p"; "8100:8100";
        "--env-file"; "/opt/archon/.env"; "archon:latest"]
       = run_command_line docker_env
           (env_args_at (host := scenario_host (with_env RegularFile)) w1)
    /\ In (env_announcement (host := scenario_host (with_env RegularFile)) w1)
         (printed (log (snd (main (host := scenario_host (with_env RegularFile))
                               (start tt)))))
    /\ In ("Detected Docker environment: " ++ docker_env)
         (printed (log (snd (main (host := scenario_host (with_env RegularFile))
                               (start tt))))).
Proof.
  apply (env_file_announcement_matches_run_command
           (host := scenario_host (with_env RegularFile)) tt).
  vm_compute. left. reflexivity.
Defined.

(** X12 with a listener on port 8501. *)
Lemma both_ports_are_probed_witness :
  probes (log (snd (main (host := scenario_host busy_8501) (start tt)))) = [8501; 8100].
Proof.
  apply (both_ports_are_probed (host := scenario_host busy_8501) tt).
  - apply (scenario_engine_available busy_8501 _ _ eq_refl eq_refl).
  - apply scenario_probes_never_raise.
Defined.

(** X13 where [localhost] cannot be resolved: the probe of 8501 raises. *)
Lemma probe_error_escapes_witness :
  exists docker_env,
    fst (main (host := unresolvable_localhost) (start tt)) = Raised (OSError gaierror)
    /\ probes (log (snd (main (host := unresolvable_localhost) (start tt)))) = [8501]
    /\ spawned (log (snd (main (host := unresolvable_localhost) (start tt))))
       = engine_sequence (host := unresolvable_localhost)
    /\ printed (log (snd (main (host := unresolvable_localhost) (start tt))))
       = ["Detected Docker environment: " ++ docker_env].
Proof.
  apply (probe_error_escapes (host := unresolvable_localhost) tt 8501 gaierror).
  - split; intros command cwd w H; cbn [spawn unresolvable_localhost fst].
    + rewrite (scenario_version happy _ H). eexists; reflexivity.
    + rewrite (scenario_info happy _ H). eexists; reflexivity.
  - left. reflexivity.
  - intros w0. reflexivity.
  - discriminate.
Defined.

(** X14 on a host where the first build fails. *)
Lemma mcp_build_failure_aborts_witness :
  fst (main (host := scenario_host mcp_build_fails) (start tt)) = Returned 1
  /\ spawned (log (snd (main (host := scenario_host mcp_build_fails) (start tt))))
     = (engine_sequence (host := scenario_host mcp_build_fails)
          ++ [(build_mcp, Some (mcp_dir (host := scenario_host mcp_build_fails)))])%list
  /\ last (log (snd (main (host := scenario_host mcp_build_fails) (start tt)))) (Slept 0)
     = Printed "Error building MCP container"
  /\ pauses (log (snd (main (host := scenario_host mcp_build_fails) (start tt)))) = [].
Proof.
  apply (mcp_build_failure_aborts (host := scenario_host mcp_build_fails) tt).
  - apply (scenario_engine_available mcp_build_fails _ _ eq_refl eq_refl).
  - apply (scenario_ports_free mcp_build_fails eq_refl).
  - intros cwd w. do 2 eexists. split; [reflexivity|discriminate].
Defined.

(** X15 on a host where the second build fails while a container runs. *)
Lemma archon_build_failure_aborts_witness :
  fst (main (host := scenario_host archon_build_fails) (start tt)) = Returned 1
  /\ spawned (log (snd (main (host := scenario_host archon_build_fails) (start tt))))
     = (engine_sequence (host := scenario_host archon_build_fails)
          ++ [(build_mcp, Some (mcp_dir (host := scenario_host archon_build_fails)));
              (build_archon, Some (base_dir (host := scenario_host archon_build_fails)))])%list
  /\ last (log (snd (main (host := scenario_host archon_build_fails) (start tt))))
       (Slept 0)
     = Printed "Error building main Archon container"
  /\ pauses (log (snd (main (host := scenario_host archon_build_fails) (start tt)))) = [].
Proof.
  apply (archon_build_failure_aborts (host := scenario_host archon_build_fails) tt).
  - apply (scenario_engine_available archon_build_fails _ _ eq_refl eq_refl).
  - apply (scenario_ports_free archon_build_fails eq_refl).
  - intros cwd w. eexists. reflexivity.
  - intros cwd w. do 2 eexists. split; [reflexivity|discriminate].
Defined.

(** X16 with a running container and a run command that is refused. *)
Lemma refused_run_leaves_no_container_witness :
  exists docker_env w1,
    fst (main (host := scenario_host running_and_run_refused) (start tt)) = Returned 1
    /\ spawned (log (snd (main (host := scenario_host running_and_run_refused)
                            (start tt))))
       = (engine_sequence (host := scenario_host running_and_run_refused)
            ++ launch_sequence (host := scenario_host running_and_run_refused)
                 docker_env w1 true)%list
    /\ last (log (snd (main (host := scenario_host running_and_run_refused) (start tt))))
         (Slept 0)
       = Printed "Error starting Archon container"
    /\ pauses (log (snd (main (host := scenario_host running_and_run_refused)
                           (start tt)))) = [].
Proof.
  apply (refused_run_leaves_no_container (host := scenario_host running_and_run_refused) tt).
  - apply (scenario_engine_available running_and_run_refused _ _ eq_refl eq_refl).
  - apply (scenario_ports_free running_and_run_refused eq_refl).
  - apply (scenario_builds_succeed running_and_run_refused _ _ eq_refl eq_refl).
  - apply scenario_answers. intros command H.
    rewrite (scenario_ps running_and_run_refused _ H). wrote_text.
  - apply scenario_answers. intros command H.
    rewrite (scenario_stop running_and_run_refused _ H). do 2 eexists; reflexivity.
  - apply scenario_answers. intros command H.
    rewrite (scenario_rm running_and_run_refused _ H). do 2 eexists; reflexivity.
  - apply scenario_answers. intros command H.
    rewrite (scenario_run running_and_run_refused _ H).
    do 2 eexists; split; [reflexivity|discriminate].
Defined.

(** X17 with a binary the user may not execute. *)
Lemma unexecutable_engine_raises_witness :
  fst (main (host := scenario_host not_executable) (start tt))
  = Raised (OSError PermissionError)
  /\ log (snd (main (host := scenario_host not_executable) (start tt)))
     = [Spawned docker_version None].
Proof.
  apply (unexecutable_engine_raises (host := scenario_host not_executable) tt
           PermissionError).
  - reflexivity.
  - discriminate.
Defined.

